(** * ADR component of an ns-3 LoRaWAN network server

    A shallow embedding of [adr-component.h] / [adr-component.cc]: the
    network-side Adaptive Data Rate controller.  Member functions of
    [AdrComponent] become functions taking the object ([this]) as first
    argument; the end-device status written through [Ptr<EndDeviceStatus>]
    is threaded explicitly.

    Numeric model.  C++ [int] values are integers in [Z]; every [int] the
    component computes stays far inside the 32-bit range (spreading factors
    come from a [uint8_t], step counts come out of a range-checked
    conversion).  C++ [double] values are exact rationals extended with a
    not-a-number value: arithmetic is exact (rounding and overflow of
    binary64 are not modelled), a comparison with a NaN operand is false and
    0/0 is NaN, as in IEEE 754.  Undefined behaviour (reading past the end of
    the packet list, reading an uninitialised local, indexing the threshold
    array out of bounds, converting a NaN or an out-of-range [double] to
    [int]) is the value [None]. *)

From Stdlib Require Import ZArith QArith Qround List Bool Lia Lqa.
Import ListNotations.

Local Open Scope Z_scope.

(** ** Doubles *)

Module Double.

Inductive double : Type :=
| Fin (q : Q)
| NaN.

Definition lift2 (f : Q -> Q -> Q) (x y : double) : double :=
  match x, y with
  | Fin a, Fin b => Fin (f a b)
  | _, _ => NaN
  end.

Definition add : double -> double -> double := lift2 Qplus.
Definition sub : double -> double -> double := lift2 Qminus.
Definition mul : double -> double -> double := lift2 Qmult.

(** Division.  The only divisor of the component that can be zero is
    [gwList.size()], and then the dividend is the empty sum 0: the
    quotient is 0/0 = NaN.  (A non-zero dividend over zero, an infinity in
    IEEE 754, never arises; it is mapped to [NaN] as well.) *)
Definition div (x y : double) : double :=
  match x, y with
  | Fin a, Fin b => if Qeq_bool b 0 then NaN else Fin (a / b)
  | _, _ => NaN
  end.

(** [x < y]; false as soon as one operand is NaN. *)
Definition ltb (x y : double) : bool :=
  match x, y with
  | Fin a, Fin b => negb (Qle_bool b a)
  | _, _ => false
  end.

(** [x > y]. *)
Definition gtb (x y : double) : bool := ltb y x.

(** Implicit conversion [int -> double] (also used for [size_t]). *)
Definition of_int (n : Z) : double := Fin (inject_Z n).

(** [std::floor]. *)
Definition floor (x : double) : double :=
  match x with
  | Fin a => Fin (inject_Z (Qfloor a))
  | NaN => NaN
  end.

Definition INT_MIN : Z := - 2 ^ 31.
Definition INT_MAX : Z := 2 ^ 31 - 1.

(** Truncation toward zero. *)
Definition Qtrunc (a : Q) : Z :=
  if Qle_bool 0 a then Qfloor a else Qceiling a.

(** Implicit conversion [double -> int]: truncation toward zero; undefined
    for NaN and when the truncated value does not fit an [int]. *)
Definition to_int (x : double) : option Z :=
  match x with
  | Fin a =>
      let t := Qtrunc a in
      if (INT_MIN <=? t) && (t <=? INT_MAX) then Some t else None
  | NaN => None
  end.

(** Numeric equality and order of doubles, as propositions. *)
Definition eq (x y : double) : Prop :=
  match x, y with
  | Fin a, Fin b => (a == b)%Q
  | NaN, NaN => True
  | _, _ => False
  end.

Definition le (x y : double) : Prop :=
  match x, y with
  | Fin a, Fin b => (a <= b)%Q
  | _, _ => False
  end.

Definition is_finite (x : double) : Prop :=
  match x with Fin _ => True | NaN => False end.

End Double.

Import Double.

Declare Scope double_scope.
Delimit Scope double_scope with D.
Bind Scope double_scope with double.
Infix "+" := add : double_scope.
Infix "-" := sub : double_scope.
Infix "*" := mul : double_scope.
Infix "/" := div : double_scope.
Infix "<?" := ltb : double_scope.
Infix ">?" := gtb : double_scope.
Infix "==" := Double.eq (at level 70, no associativity) : double_scope.
Infix "<=" := Double.le : double_scope.

(** ** Collaborator types

    [EndDeviceStatus], the packet and the LoRaWAN headers belong to other
    files of the lorawan module; only the members the component reads or
    writes are kept. *)

(** Modelled from the spec: a gateway report, of which the component reads
    the received power [rxPower] (dBm). *)
Record GatewayInfo : Type := mkGatewayInfo {
  rxPower : double
}.

(** Gateway addresses, the keys of [EndDeviceStatus::GatewayList]. *)
Definition Address : Type := N.

(** Modelled from the spec: [EndDeviceStatus::GatewayList], a map from
    gateway address to report, as the list of its entries in iteration
    order. *)
Definition GatewayList : Type := list (Address * GatewayInfo).

(** Modelled from the spec: the record kept for a received packet, of which
    the component reads the gateway reports [gwList]. *)
Record ReceivedPacketInfo : Type := mkReceivedPacketInfo {
  gwList : GatewayList
}.

(** Modelled from the spec: an uplink packet, reduced to the ADR bit of its
    frame header ([LoraFrameHeader::GetAdr] after [RemoveHeader]). *)
Record Packet : Type := mkPacket {
  GetAdr : bool
}.

(** Modelled from the spec: [EndDeviceStatus::ReceivedPacketList], oldest
    packet first. *)
Definition ReceivedPacketList : Type := list (Packet * ReceivedPacketInfo).

(** Modelled from the spec: the MAC commands a frame header carries; the
    component adds [LinkAdrReq dataRate txPower enabledChannels repetitions]. *)
Inductive MacCommand : Type :=
| LinkAdrReq (dataRate txPower : Z) (enabledChannels : list Z) (repetitions : Z).

Inductive Direction : Type := Uplink | Downlink.

Inductive MType : Type :=
| JOIN_REQUEST | JOIN_ACCEPT
| UNCONFIRMED_DATA_UP | UNCONFIRMED_DATA_DOWN
| CONFIRMED_DATA_UP | CONFIRMED_DATA_DOWN
| PROPRIETARY.

(** Modelled from the spec: the frame header of the reply. *)
Record LoraFrameHeader : Type := mkFrameHeader {
  commands : list MacCommand;
  direction : Direction
}.

(** Modelled from the spec: the MAC header of the reply. *)
Record LoraMacHeader : Type := mkMacHeader {
  mtype : MType
}.

(** Modelled from the spec: the reply being staged, [EndDeviceStatus::m_reply]. *)
Record Reply : Type := mkReply {
  needsReply : bool;
  frameHeader : LoraFrameHeader;
  macHeader : LoraMacHeader
}.

(** Modelled from the spec: the per-device record.  [GetTransmissionPower]
    is the transmission power of the device's MAC layer
    ([status->GetMac()->GetTransmissionPower()]), which the component stores
    in a [double]. *)
Record EndDeviceStatus : Type := mkStatus {
  GetLastPacketReceivedFromDevice : Packet;
  GetReceivedPacketList : ReceivedPacketList;
  GetFirstReceiveWindowSpreadingFactor : Z;
  GetTransmissionPower : double;
  m_reply : Reply
}.

(** Modelled from the spec: [LoraFrameHeader::AddLinkAdrReq] appends the
    command to the header's command list. *)
Definition AddLinkAdrReq (h : LoraFrameHeader)
    (dataRate txPower : Z) (enabledChannels : list Z) (repetitions : Z)
  : LoraFrameHeader :=
  {| commands := commands h ++ [LinkAdrReq dataRate txPower enabledChannels repetitions];
     direction := direction h |}.

(** Modelled from the spec: [LoraFrameHeader::SetAsDownlink]. *)
Definition SetAsDownlink (h : LoraFrameHeader) : LoraFrameHeader :=
  {| commands := commands h; direction := Downlink |}.

(** Modelled from the spec: [LoraMacHeader::SetMType]. *)
Definition SetMType (h : LoraMacHeader) (t : MType) : LoraMacHeader :=
  {| mtype := t |}.

(** ** The component object

    The data members of [class AdrComponent] (adr-component.h):
    [historyRange] is declared [uint8_t], the other numbers [int], and
    [treshold] is an array of 6 [double]. *)
Record AdrComponent : Type := mkAdrComponent {
  tpAveraging : bool;
  historyRange : Z;
  historyAveraging : bool;
  min_spreadingFactor : Z;
  min_transmissionPower : Z;
  max_transmissionPower : Z;
  offset : Z;
  B : Z;
  NF : Z;
  treshold : list double
}.

(** The in-class initialisers of adr-component.h. *)
Definition default : AdrComponent :=
  {| tpAveraging := true;
     historyRange := 20;
     historyAveraging := true;
     min_spreadingFactor := 7;
     min_transmissionPower := 2;
     max_transmissionPower := 14;
     offset := 10;
     B := 125000;
     NF := 6;
     treshold := [Fin (-20); Fin (-35 # 2); Fin (-15);
                  Fin (-25 # 2); Fin (-10); Fin (-15 # 2)] |}.

(** Reading a C array: defined inside its bounds only. *)
Definition index {A : Type} (a : list A) (i : Z) : option A :=
  if i <? 0 then None else nth_error a (Z.to_nat i).

Section Component.

(** [log10] of the C math library. *)
Variable log10 : double -> double.

Variable this : AdrComponent.

(** [SfToDr], as defined in adr-component.cc on [int] (the header declares
    it on [uint8_t]). *)
Definition SfToDr (sf : Z) : Z := sf - 7.

Definition TxPowerToSNR (transmissionPower : double) : double :=
  (transmissionPower + of_int 174 - of_int 10 * log10 (of_int (B this))
   - of_int (NF this))%D.

(** The loop of [GetMaxTxFromGateways]: [it] runs over the entries that
    are left, [max] is the running maximum. *)
Fixpoint GetMaxTxFromGateways_loop (it : GatewayList) (max : double) : double :=
  match it with
  | [] => max
  | (_, info) :: it' =>
      GetMaxTxFromGateways_loop it'
        (if (rxPower info >? max)%D then rxPower info else max)
  end.

Definition GetMaxTxFromGateways (gwList : GatewayList) : double :=
  GetMaxTxFromGateways_loop gwList (of_int (min_transmissionPower this)).

Fixpoint GetAverageTxFromGateways_loop (it : GatewayList) (sum : double) : double :=
  match it with
  | [] => sum
  | (_, info) :: it' => GetAverageTxFromGateways_loop it' (sum + rxPower info)%D
  end.

Definition GetAverageTxFromGateways (gwList : GatewayList) : double :=
  let sum := GetAverageTxFromGateways_loop gwList (of_int 0) in
  (sum / of_int (Z.of_nat (length gwList)))%D.

Definition GetReceivedPower (gwList : GatewayList) : double :=
  if tpAveraging this
  then GetAverageTxFromGateways gwList
  else TxPowerToSNR (GetMaxTxFromGateways gwList).

(** The loop of [GetMaxSNR]: [n] iterations are left, [it] is the reverse
    iterator (the packets from the current one back to the oldest).
    Dereferencing the iterator past the oldest packet is undefined. *)
Fixpoint GetMaxSNR_loop (n : nat) (it : ReceivedPacketList) (max : double)
  : option double :=
  match n with
  | O => Some max
  | S n' =>
      match it with
      | [] => None
      | (_, info) :: it' =>
          let m_SNR := TxPowerToSNR (GetReceivedPower (gwList info)) in
          GetMaxSNR_loop n' it' (if (m_SNR >? max)%D then m_SNR else max)
      end
  end.

Definition GetMaxSNR (packetList : ReceivedPacketList) (historyRange : Z)
  : option double :=
  let max := TxPowerToSNR (of_int (min_transmissionPower this)) in
  GetMaxSNR_loop (Z.to_nat historyRange) (rev packetList) max.

(** The loop of [GetAverageSNR]; the state is the pair of the locals
    [sum] and [m_SNR], the latter uninitialised ([None]) before the first
    iteration. *)
Fixpoint GetAverageSNR_loop (n : nat) (it : ReceivedPacketList)
    (sum : double) (m_SNR : option double) : option (double * option double) :=
  match n with
  | O => Some (sum, m_SNR)
  | S n' =>
      match it with
      | [] => None
      | (_, info) :: it' =>
          let m_SNR := TxPowerToSNR (GetReceivedPower (gwList info)) in
          GetAverageSNR_loop n' it' (sum + m_SNR)%D (Some m_SNR)
      end
  end.

(** The value returned is [m_SNR / historyRange]; [sum] is dropped. *)
Definition GetAverageSNR (packetList : ReceivedPacketList) (historyRange : Z)
  : option double :=
  match GetAverageSNR_loop (Z.to_nat historyRange) (rev packetList) (of_int 0) None with
  | Some (sum, Some m_SNR) => Some (m_SNR / of_int historyRange)%D
  | _ => None
  end.

(** First loop of the step policy:
    [while (steps > 0 && spreadingFactor > min_spreadingFactor)]. *)
Fixpoint lower_sf (fuel : nat) (steps spreadingFactor : Z) : Z * Z :=
  match fuel with
  | O => (steps, spreadingFactor)
  | S fuel' =>
      if (steps >? 0) && (spreadingFactor >? min_spreadingFactor this)
      then lower_sf fuel' (steps - 1) (spreadingFactor - 1)
      else (steps, spreadingFactor)
  end.

(** Second loop:
    [while (steps > 0 && transmissionPower > min_transmissionPower)]. *)
Fixpoint lower_tp (fuel : nat) (steps : Z) (transmissionPower : double)
  : Z * double :=
  match fuel with
  | O => (steps, transmissionPower)
  | S fuel' =>
      if (steps >? 0)
         && (transmissionPower >? of_int (min_transmissionPower this))%D
      then lower_tp fuel' (steps - 1) (transmissionPower - of_int 3)%D
      else (steps, transmissionPower)
  end.

(** Third loop:
    [while (steps < 0 && transmissionPower < max_transmissionPower)]. *)
Fixpoint raise_tp (fuel : nat) (steps : Z) (transmissionPower : double)
  : Z * double :=
  match fuel with
  | O => (steps, transmissionPower)
  | S fuel' =>
      if (steps <? 0)
         && (transmissionPower <? of_int (max_transmissionPower this))%D
      then raise_tp fuel' (steps + 1) (transmissionPower + of_int 3)%D
      else (steps, transmissionPower)
  end.

(** The three loops in sequence.  Each iteration moves [steps] one unit
    toward 0, so [|steps|] iterations are enough for each loop.  The
    result is the final [(steps, spreadingFactor, transmissionPower)]. *)
Definition StepPolicy (steps spreadingFactor : Z) (transmissionPower : double)
  : Z * Z * double :=
  let '(steps1, sf1) := lower_sf (Z.abs_nat steps) steps spreadingFactor in
  let '(steps2, tp2) := lower_tp (Z.abs_nat steps1) steps1 transmissionPower in
  let '(steps3, tp3) := raise_tp (Z.abs_nat steps2) steps2 tp2 in
  (steps3, sf1, tp3).

(** Lines 120-144 of [AdrImplementation]: the number of steps. *)
Definition AdrSteps (status : EndDeviceStatus) : option Z :=
  match
    (if historyAveraging this
     then GetAverageSNR (GetReceivedPacketList status) (historyRange this)
     else GetMaxSNR (GetReceivedPacketList status) (historyRange this))
  with
  | None => None
  | Some m_SNR =>
      let spreadingFactor := GetFirstReceiveWindowSpreadingFactor status in
      match index (treshold this) (SfToDr spreadingFactor) with
      | None => None
      | Some req_SNR =>
          let margin_SNR := (m_SNR - req_SNR - of_int (offset this))%D in
          to_int (floor (margin_SNR / of_int 3)%D)
      end
  end.

(** The locals [spreadingFactor] and [transmissionPower] after the three
    loops (line 170). *)
Definition AdrDecision (status : EndDeviceStatus) : option (Z * double) :=
  match AdrSteps status with
  | None => None
  | Some steps =>
      let '(_, sf, tp) :=
        StepPolicy steps (GetFirstReceiveWindowSpreadingFactor status)
          (GetTransmissionPower status) in
      Some (sf, tp)
  end.

(** [AdrImplementation]: the pair [( *newDataRate, *newTxPower )]; the
    power is converted from [double] to [int] on assignment. *)
Definition AdrImplementation (status : EndDeviceStatus) : option (Z * Z) :=
  match AdrDecision status with
  | None => None
  | Some (spreadingFactor, transmissionPower) =>
      match to_int transmissionPower with
      | None => None
      | Some newTxPower => Some (SfToDr spreadingFactor, newTxPower)
      end
  end.

(** The writes of [BeforeSendingReply] to [status->m_reply].  The flag
    [needsReply] is written before [AdrImplementation] is called and the
    headers after it; [AdrImplementation] does not read [m_reply]. *)
Definition stage (status : EndDeviceStatus) (newDataRate newTxPower : Z)
  : EndDeviceStatus :=
  let enabledChannels := [1; 2; 3] in
  let rep := 1 in
  let r := m_reply status in
  {| GetLastPacketReceivedFromDevice := GetLastPacketReceivedFromDevice status;
     GetReceivedPacketList := GetReceivedPacketList status;
     GetFirstReceiveWindowSpreadingFactor := GetFirstReceiveWindowSpreadingFactor status;
     GetTransmissionPower := GetTransmissionPower status;
     m_reply :=
       {| needsReply := true;
          frameHeader :=
            SetAsDownlink
              (AddLinkAdrReq (frameHeader r) newDataRate newTxPower enabledChannels rep);
          macHeader := SetMType (macHeader r) UNCONFIRMED_DATA_DOWN |} |}.

Definition BeforeSendingReply (status : EndDeviceStatus) : option EndDeviceStatus :=
  if GetAdr (GetLastPacketReceivedFromDevice status)
  then
    if Z.of_nat (length (GetReceivedPacketList status)) <? historyRange this
    then Some status
    else
      match AdrImplementation status with
      | None => None
      | Some (newDataRate, newTxPower) => Some (stage status newDataRate newTxPower)
      end
  else Some status.

Definition OnReceivedPacket (packet : Packet) (status : EndDeviceStatus)
  : EndDeviceStatus := status.

Definition OnFailedReply (status : EndDeviceStatus) : EndDeviceStatus := status.

Definition GetTxPowerIndex (txPower : Z) : Z :=
  if txPower >=? 16 then 0
  else if txPower >=? 14 then 1
  else if txPower >=? 12 then 2
  else if txPower >=? 10 then 3
  else if txPower >=? 8 then 4
  else if txPower >=? 6 then 5
  else if txPower >=? 4 then 6
  else 7.

End Component.

(** ** Notions used by the statements *)

(** The per-packet SNR estimate: the value of the local [m_SNR] in the
    loops of [GetMaxSNR] and [GetAverageSNR]. *)
Definition PacketSNR (log10 : double -> double) (this : AdrComponent)
    (p : Packet * ReceivedPacketInfo) : double :=
  TxPowerToSNR log10 this (GetReceivedPower log10 this (gwList (snd p))).

(** The window of a history: its last [historyRange] packets, most recent
    first. *)
Definition window (packetList : ReceivedPacketList) (historyRange : Z)
  : ReceivedPacketList :=
  firstn (Z.to_nat historyRange) (rev packetList).

(** The average history policy as the spec words it: the sum of the
    per-packet SNRs over the window, divided by [historyRange]. *)
Definition mean_SNR (log10 : double -> double) (this : AdrComponent)
    (packetList : ReceivedPacketList) (historyRange : Z) : double :=
  (fold_left add (map (PacketSNR log10 this) (window packetList historyRange)) (of_int 0)
   / of_int historyRange)%D.

(** The true maximum of the reported powers of a non-empty report list. *)
Definition max_rxPower (gwList : GatewayList) : option Q :=
  fold_right
    (fun e acc =>
       match rxPower (snd e), acc with
       | Fin p, Some m => Some (if Qle_bool p m then m else p)
       | Fin p, None => Some p
       | NaN, _ => acc
       end)
    None gwList.

(** [x'] is [x] raised by [delta]. *)
Definition raised (delta : Q) (x x' : double) : Prop := (x' == x + Fin delta)%D.

(** [y] is not lower than [x]: both are numbers and [x <= y], or both are
    NaN. *)
Definition no_lower (x y : double) : Prop :=
  match x, y with
  | Fin a, Fin b => (a <= b)%Q
  | NaN, NaN => True
  | _, _ => False
  end.

Definition opt_raised (delta : Q) (x x' : option double) : Prop :=
  match x, x' with
  | Some a, Some b => raised delta a b
  | None, None => True
  | _, _ => False
  end.

Definition opt_no_lower (x x' : option double) : Prop :=
  match x, x' with
  | Some a, Some b => no_lower a b
  | None, None => True
  | _, _ => False
  end.

(** A packet heard by at least one gateway, every report a number. *)
Definition heard (p : Packet * ReceivedPacketInfo) : Prop :=
  gwList (snd p) <> [] /\ Forall (fun e => is_finite (rxPower (snd e))) (gwList (snd p)).

(** A report list, and a packet, with every reported power raised by
    [delta]. *)
Definition raise_reports (delta : Q) (gwList : GatewayList) : GatewayList :=
  map (fun e => (fst e, {| rxPower := (rxPower (snd e) + Fin delta)%D |})) gwList.

Definition raise_packet (delta : Q) (p : Packet * ReceivedPacketInfo)
  : Packet * ReceivedPacketInfo :=
  (fst p, {| gwList := raise_reports delta (gwList (snd p)) |}).

(** A device record whose history has every reported power raised by
    [delta], the rest as it was. *)
Definition raise_history (delta : Q) (status : EndDeviceStatus) : EndDeviceStatus :=
  {| GetLastPacketReceivedFromDevice := GetLastPacketReceivedFromDevice status;
     GetReceivedPacketList := map (raise_packet delta) (GetReceivedPacketList status);
     GetFirstReceiveWindowSpreadingFactor := GetFirstReceiveWindowSpreadingFactor status;
     GetTransmissionPower := GetTransmissionPower status;
     m_reply := m_reply status |}.

(** ** Concrete inputs *)

(** A stand-in for the C library's [log10]: log10(125000) = 5.09691 to five
    decimals.  The component evaluates [log10] at the bandwidth only. *)
Definition log10_approx (x : double) : double :=
  match x with
  | Fin a => if Qeq_bool a 125000 then Fin (509691 # 100000) else NaN
  | NaN => NaN
  end.

(** The component with the max policy over gateways. *)
Definition max_over_gateways : AdrComponent :=
  {| tpAveraging := false;
     historyRange := historyRange default;
     historyAveraging := historyAveraging default;
     min_spreadingFactor := min_spreadingFactor default;
     min_transmissionPower := min_transmissionPower default;
     max_transmissionPower := max_transmissionPower default;
     offset := offset default;
     B := B default;
     NF := NF default;
     treshold := treshold default |}.

(** The component with the max policy over the history. *)
Definition max_over_history : AdrComponent :=
  {| tpAveraging := tpAveraging default;
     historyRange := historyRange default;
     historyAveraging := false;
     min_spreadingFactor := min_spreadingFactor default;
     min_transmissionPower := min_transmissionPower default;
     max_transmissionPower := max_transmissionPower default;
     offset := offset default;
     B := B default;
     NF := NF default;
     treshold := treshold default |}.

(** An uplink that asks for ADR and was heard by gateway 1 at [p] dBm. *)
Definition uplink (p : Q) : Packet * ReceivedPacketInfo :=
  ({| GetAdr := true |}, {| gwList := [(1%N, {| rxPower := Fin p |})] |}).

(** An uplink no gateway has reported. *)
Definition unheard : Packet * ReceivedPacketInfo :=
  ({| GetAdr := true |}, {| gwList := [] |}).

Definition no_reply : Reply :=
  {| needsReply := false;
     frameHeader := {| commands := []; direction := Uplink |};
     macHeader := {| mtype := UNCONFIRMED_DATA_UP |} |}.

(** A device at spreading factor [sf] and [tp] dBm whose last uplink asked
    for ADR, with the given history. *)
Definition device (sf tp : Z) (history : ReceivedPacketList) : EndDeviceStatus :=
  {| GetLastPacketReceivedFromDevice := {| GetAdr := true |};
     GetReceivedPacketList := history;
     GetFirstReceiveWindowSpreadingFactor := sf;
     GetTransmissionPower := of_int tp;
     m_reply := no_reply |}.

(** Twenty uplinks, each heard by one gateway at [p] dBm. *)
Definition steady (p : Q) : ReceivedPacketList := repeat (uplink p) 20.


Arguments SfToDr sf : simpl never.

(** ** Facts about doubles *)

Lemma ltb_Fin (a b : Q) : (Fin a <? Fin b)%D = true <-> (a < b)%Q.
Proof.
  unfold ltb. rewrite negb_true_iff.
  destruct (Qle_bool b a) eqn:E.
  - apply Qle_bool_iff in E. split; [discriminate | intros H; exfalso; lra].
  - split; [intros _ | reflexivity].
    destruct (Qlt_le_dec a b) as [H | H]; [exact H |].
    apply Qle_bool_iff in H. congruence.
Qed.

Lemma ltb_Fin_false (a b : Q) : (Fin a <? Fin b)%D = false <-> (b <= a)%Q.
Proof.
  destruct (Fin a <? Fin b)%D eqn:E.
  - apply ltb_Fin in E. split; [discriminate | intros H; exfalso; lra].
  - split; [intros _ | reflexivity].
    destruct (Qlt_le_dec a b) as [H | H]; [| exact H].
    apply ltb_Fin in H. congruence.
Qed.

Lemma gtb_Fin (a b : Q) : (Fin a >? Fin b)%D = true <-> (b < a)%Q.
Proof. unfold gtb. apply ltb_Fin. Qed.

Lemma gtb_Fin_false (a b : Q) : (Fin a >? Fin b)%D = false <-> (a <= b)%Q.
Proof. unfold gtb. apply ltb_Fin_false. Qed.

Lemma le_refl_Fin (a : Q) : (Fin a <= Fin a)%D.
Proof. simpl. lra. Qed.

Lemma le_trans (x y z : double) : (x <= y)%D -> (y <= z)%D -> (x <= z)%D.
Proof. destruct x, y, z; simpl; try tauto. intros; lra. Qed.

Lemma Qtrunc_inject_Z (n : Z) : Qtrunc (inject_Z n) = n.
Proof.
  unfold Qtrunc. destruct (Qle_bool 0 (inject_Z n)).
  - apply Qfloor_Z.
  - apply Qceiling_Z.
Qed.

Lemma Qtrunc_eq (a b : Q) : (a == b)%Q -> Qtrunc a = Qtrunc b.
Proof.
  intros H. unfold Qtrunc.
  assert (E : Qle_bool 0 a = Qle_bool 0 b).
  { destruct (Qle_bool 0 a) eqn:Ea, (Qle_bool 0 b) eqn:Eb; try reflexivity.
    - apply Qle_bool_iff in Ea. rewrite H in Ea. apply Qle_bool_iff in Ea. congruence.
    - apply Qle_bool_iff in Eb. rewrite <- H in Eb. apply Qle_bool_iff in Eb. congruence. }
  rewrite E. destruct (Qle_bool 0 b).
  - now apply Qfloor_comp.
  - now apply Qceiling_comp.
Qed.

Lemma Qtrunc_mono (a b : Q) : (a <= b)%Q -> Qtrunc a <= Qtrunc b.
Proof.
  intros H. unfold Qtrunc.
  destruct (Qle_bool 0 a) eqn:Ea, (Qle_bool 0 b) eqn:Eb.
  - now apply Qfloor_resp_le.
  - apply Qle_bool_iff in Ea.
    assert (Hb : (0 <= b)%Q) by lra. apply Qle_bool_iff in Hb. congruence.
  - (* a < 0 <= b *)
    assert (Ha : (a < 0)%Q).
    { destruct (Qlt_le_dec a 0) as [L | L]; [exact L |].
      apply Qle_bool_iff in L. congruence. }
    apply Qle_bool_iff in Eb.
    assert (H1 : Qceiling a <= Qceiling (inject_Z 0)).
    { apply Qceiling_resp_le. change (a <= 0)%Q. lra. }
    assert (H2 : Qfloor (inject_Z 0) <= Qfloor b).
    { apply Qfloor_resp_le. exact Eb. }
    rewrite Qceiling_Z in H1. rewrite Qfloor_Z in H2.
    lia.
  - now apply Qceiling_resp_le.
Qed.

Lemma to_int_of_int (n : Z) :
  INT_MIN <= n <= INT_MAX -> to_int (of_int n) = Some n.
Proof.
  intros H. unfold to_int, of_int. rewrite Qtrunc_inject_Z.
  destruct (Z.leb_spec INT_MIN n), (Z.leb_spec n INT_MAX); simpl; auto; lia.
Qed.

Lemma to_int_eq (x y : double) : (x == y)%D -> to_int x = to_int y.
Proof.
  destruct x, y; simpl; try tauto. intros H. now rewrite (Qtrunc_eq _ _ H).
Qed.

Lemma to_int_mono (x y : double) (n m : Z) :
  (x <= y)%D -> to_int x = Some n -> to_int y = Some m -> n <= m.
Proof.
  destruct x as [a |], y as [b |]; simpl; try tauto; try discriminate.
  intros H Hn Hm.
  destruct ((INT_MIN <=? Qtrunc a) && (Qtrunc a <=? INT_MAX)); [| discriminate].
  destruct ((INT_MIN <=? Qtrunc b) && (Qtrunc b <=? INT_MAX)); [| discriminate].
  injection Hn as <-. injection Hm as <-. now apply Qtrunc_mono.
Qed.

Lemma inject_Z_sub (x y : Z) : inject_Z (x - y) = (inject_Z x - inject_Z y)%Q.
Proof.
  unfold Qminus. rewrite <- inject_Z_opp, <- inject_Z_plus. reflexivity.
Qed.

Lemma Fin_gt_of_int (q : Q) (n m : Z) :
  (q == inject_Z n)%Q -> (Fin q >? of_int m)%D = (m <? n).
Proof.
  intros H. unfold of_int.
  destruct (Z.ltb_spec m n) as [L | L].
  - apply gtb_Fin. rewrite H. now rewrite <- Zlt_Qlt.
  - apply gtb_Fin_false. rewrite H. now rewrite <- Zle_Qle.
Qed.

Lemma Fin_lt_of_int (q : Q) (n m : Z) :
  (q == inject_Z n)%Q -> (Fin q <? of_int m)%D = (n <? m).
Proof.
  intros H. unfold of_int.
  destruct (Z.ltb_spec n m) as [L | L].
  - apply ltb_Fin. rewrite H. now rewrite <- Zlt_Qlt.
  - apply ltb_Fin_false. rewrite H. now rewrite <- Zle_Qle.
Qed.

(** ** The step policy *)

Section StepPolicyFacts.

Variable this : AdrComponent.

Lemma lower_sf_closed (fuel : nat) (steps sf : Z) :
  steps <= Z.of_nat fuel ->
  lower_sf this fuel steps sf =
    (steps - Z.max 0 (Z.min steps (sf - min_spreadingFactor this)),
     sf - Z.max 0 (Z.min steps (sf - min_spreadingFactor this))).
Proof.
  revert steps sf. induction fuel as [| fuel IH]; intros steps sf Hf.
  - simpl. f_equal; lia.
  - cbn [lower_sf].
    destruct (Z.gtb_spec steps 0) as [Hs | Hs];
      destruct (Z.gtb_spec sf (min_spreadingFactor this)) as [Hm | Hm]; cbn [andb];
      try (f_equal; lia).
    rewrite IH by lia. f_equal; lia.
Qed.

Lemma lower_tp_nonpos (fuel : nat) (steps : Z) (tp : double) :
  steps <= 0 -> lower_tp this fuel steps tp = (steps, tp).
Proof.
  intros H. destruct fuel; [reflexivity |]. cbn [lower_tp].
  destruct (Z.gtb_spec steps 0); [lia | reflexivity].
Qed.

Lemma raise_tp_nonneg (fuel : nat) (steps : Z) (tp : double) :
  0 <= steps -> raise_tp this fuel steps tp = (steps, tp).
Proof.
  intros H. destruct fuel; [reflexivity |]. cbn [raise_tp].
  destruct (Z.ltb_spec steps 0); [lia | reflexivity].
Qed.

Lemma lower_tp_steps_nonneg (fuel : nat) (steps : Z) (tp : double) :
  0 <= steps -> 0 <= fst (lower_tp this fuel steps tp).
Proof.
  revert steps tp. induction fuel as [| fuel IH]; intros steps tp H; [exact H |].
  cbn [lower_tp].
  destruct (Z.gtb_spec steps 0) as [Hs | Hs]; cbn [andb]; [| exact H].
  destruct (tp >? of_int (min_transmissionPower this))%D; [| exact H].
  apply IH. lia.
Qed.

(** On the 3 dB grid above the floor of 2 dBm the second loop has a closed
    form: it takes [min steps k] steps down from [2 + 3 k]. *)
Lemma lower_tp_grid (fuel : nat) (steps k : Z) (q : Q) :
  min_transmissionPower this = 2 ->
  steps <= Z.of_nat fuel -> 0 <= k ->
  (q == inject_Z (2 + 3 * k))%Q ->
  exists q',
    lower_tp this fuel steps (Fin q) = (steps - Z.max 0 (Z.min steps k), Fin q') /\
    (q' == inject_Z (2 + 3 * (k - Z.max 0 (Z.min steps k))))%Q.
Proof.
  intros Hmin. revert steps k q.
  induction fuel as [| fuel IH]; intros steps k q Hf Hk Hq.
  - exists q. cbn [lower_tp]. replace (Z.max 0 (Z.min steps k)) with 0 by lia.
    rewrite !Z.sub_0_r. auto.
  - cbn [lower_tp]. rewrite Hmin, (Fin_gt_of_int q (2 + 3 * k) 2 Hq).
    destruct (Z.gtb_spec steps 0) as [Hs | Hs];
      destruct (Z.ltb_spec 2 (2 + 3 * k)) as [Hm | Hm]; cbn [andb];
      try (exists q; replace (Z.max 0 (Z.min steps k)) with 0 by lia;
           rewrite !Z.sub_0_r; auto).
    destruct (IH (steps - 1) (k - 1) (q - inject_Z 3)%Q) as (q' & E & Hq');
      [lia | lia | |].
    { rewrite Hq. rewrite <- inject_Z_sub. apply inject_Z_injective. lia. }
    exists q'. change (Fin q - of_int 3)%D with (Fin (q - inject_Z 3)).
    rewrite E. split.
    + f_equal. lia.
    + rewrite Hq'. apply inject_Z_injective. lia.
Qed.

(** Likewise for the third loop below the ceiling of 14 dBm. *)
Lemma raise_tp_grid (fuel : nat) (steps k : Z) (q : Q) :
  max_transmissionPower this = 14 ->
  - steps <= Z.of_nat fuel -> k <= 4 ->
  (q == inject_Z (2 + 3 * k))%Q ->
  exists q',
    raise_tp this fuel steps (Fin q) = (steps + Z.max 0 (Z.min (- steps) (4 - k)), Fin q') /\
    (q' == inject_Z (2 + 3 * (k + Z.max 0 (Z.min (- steps) (4 - k)))))%Q.
Proof.
  intros Hmax. revert steps k q.
  induction fuel as [| fuel IH]; intros steps k q Hf Hk Hq.
  - exists q. cbn [raise_tp]. replace (Z.max 0 (Z.min (- steps) (4 - k))) with 0 by lia.
    rewrite !Z.add_0_r. auto.
  - cbn [raise_tp]. rewrite Hmax, (Fin_lt_of_int q (2 + 3 * k) 14 Hq).
    destruct (Z.ltb_spec steps 0) as [Hs | Hs];
      destruct (Z.ltb_spec (2 + 3 * k) 14) as [Hm | Hm]; cbn [andb];
      try (exists q; replace (Z.max 0 (Z.min (- steps) (4 - k))) with 0 by lia;
           rewrite !Z.add_0_r; auto).
    destruct (IH (steps + 1) (k + 1) (q + inject_Z 3)%Q) as (q' & E & Hq');
      [lia | lia | |].
    { rewrite Hq. rewrite <- inject_Z_plus. apply inject_Z_injective. lia. }
    exists q'. change (Fin q + of_int 3)%D with (Fin (q + inject_Z 3)).
    rewrite E. split.
    + f_equal. lia.
    + rewrite Hq'. apply inject_Z_injective. lia.
Qed.

(** After the first loop at most one of the two power loops runs. *)
Lemma StepPolicy_unfold (steps sf : Z) (tp : double) :
  StepPolicy this steps sf tp =
    let d := Z.max 0 (Z.min steps (sf - min_spreadingFactor this)) in
    let r := if 0 <=? steps - d
             then lower_tp this (Z.abs_nat (steps - d)) (steps - d) tp
             else raise_tp this (Z.abs_nat (steps - d)) (steps - d) tp in
    (fst r, sf - d, snd r).
Proof.
  unfold StepPolicy. rewrite lower_sf_closed by lia.
  set (d := Z.max 0 (Z.min steps (sf - min_spreadingFactor this))).
  cbv zeta. destruct (Z.leb_spec 0 (steps - d)) as [H | H].
  - pose proof (lower_tp_steps_nonneg (Z.abs_nat (steps - d)) (steps - d) tp H) as Hs.
    destruct (lower_tp this (Z.abs_nat (steps - d)) (steps - d) tp) as [s2 tp2].
    cbn [fst snd] in *. rewrite raise_tp_nonneg by exact Hs. reflexivity.
  - rewrite lower_tp_nonpos by lia.
    destruct (raise_tp this (Z.abs_nat (steps - d)) (steps - d) tp) as [s3 tp3].
    reflexivity.
Qed.

(** *** The fuel is enough: every loop stops on its own condition. *)

Lemma lower_sf_exit (fuel : nat) (steps sf : Z) :
  steps <= Z.of_nat fuel ->
  (fst (lower_sf this fuel steps sf) >? 0)
  && (snd (lower_sf this fuel steps sf) >? min_spreadingFactor this) = false.
Proof.
  intros H. rewrite lower_sf_closed by exact H. cbn [fst snd].
  apply andb_false_iff.
  destruct (Z.gtb_spec (steps - Z.max 0 (Z.min steps (sf - min_spreadingFactor this))) 0);
    [right | now left].
  destruct (Z.gtb_spec (sf - Z.max 0 (Z.min steps (sf - min_spreadingFactor this)))
              (min_spreadingFactor this)); [lia | reflexivity].
Qed.

Lemma lower_tp_exit (fuel : nat) (steps : Z) (tp : double) :
  steps <= Z.of_nat fuel ->
  (fst (lower_tp this fuel steps tp) >? 0)
  && (snd (lower_tp this fuel steps tp) >? of_int (min_transmissionPower this))%D = false.
Proof.
  revert steps tp. induction fuel as [| fuel IH]; intros steps tp H.
  - cbn [lower_tp fst snd]. destruct (Z.gtb_spec steps 0); [lia | reflexivity].
  - cbn [lower_tp].
    destruct ((steps >? 0) && (tp >? of_int (min_transmissionPower this))%D) eqn:E.
    + apply IH. lia.
    + exact E.
Qed.

Lemma raise_tp_exit (fuel : nat) (steps : Z) (tp : double) :
  - steps <= Z.of_nat fuel ->
  (fst (raise_tp this fuel steps tp) <? 0)
  && (snd (raise_tp this fuel steps tp) <? of_int (max_transmissionPower this))%D = false.
Proof.
  revert steps tp. induction fuel as [| fuel IH]; intros steps tp H.
  - cbn [raise_tp fst snd]. destruct (Z.ltb_spec steps 0); [lia | reflexivity].
  - cbn [raise_tp].
    destruct ((steps <? 0) && (tp <? of_int (max_transmissionPower this))%D) eqn:E.
    + apply IH. lia.
    + exact E.
Qed.

(** *** Monotonicity in the number of steps, for any finite power. *)

Lemma lower_tp_le (fuel : nat) (steps : Z) (q : Q) :
  (snd (lower_tp this fuel steps (Fin q)) <= Fin q)%D.
Proof.
  revert steps q. induction fuel as [| fuel IH]; intros steps q.
  - apply le_refl_Fin.
  - cbn [lower_tp].
    destruct ((steps >? 0) && (Fin q >? of_int (min_transmissionPower this))%D).
    + apply le_trans with (Fin (q - inject_Z 3)); [apply IH |].
      simpl. unfold inject_Z. lra.
    + apply le_refl_Fin.
Qed.

Lemma raise_tp_ge (fuel : nat) (steps : Z) (q : Q) :
  (Fin q <= snd (raise_tp this fuel steps (Fin q)))%D.
Proof.
  revert steps q. induction fuel as [| fuel IH]; intros steps q.
  - apply le_refl_Fin.
  - cbn [raise_tp].
    destruct ((steps <? 0) && (Fin q <? of_int (max_transmissionPower this))%D).
    + apply le_trans with (Fin (q + inject_Z 3)); [| apply IH].
      simpl. unfold inject_Z. lra.
    + apply le_refl_Fin.
Qed.

Lemma lower_tp_mono (fuel' fuel : nat) (s s' : Z) (q : Q) :
  s <= s' -> s <= Z.of_nat fuel -> s' <= Z.of_nat fuel' ->
  (snd (lower_tp this fuel' s' (Fin q)) <= snd (lower_tp this fuel s (Fin q)))%D.
Proof.
  revert fuel s s' q. induction fuel' as [| fuel' IH]; intros fuel s s' q Hs Hf Hf'.
  - rewrite !lower_tp_nonpos by lia. apply le_refl_Fin.
  - destruct (Z.gtb_spec s' 0) as [Hp' | Hp'].
    2:{ rewrite !lower_tp_nonpos by lia. apply le_refl_Fin. }
    destruct (Z.gtb_spec s 0) as [Hp | Hp].
    2:{ rewrite (lower_tp_nonpos fuel s) by lia. apply lower_tp_le. }
    destruct fuel as [| fuel]; [lia |]. cbn [lower_tp].
    destruct (Z.gtb_spec s' 0); [| lia]. destruct (Z.gtb_spec s 0); [| lia].
    cbn [andb].
    destruct (Fin q >? of_int (min_transmissionPower this))%D.
    + change (Fin q - of_int 3)%D with (Fin (q - inject_Z 3)). apply IH; lia.
    + apply le_refl_Fin.
Qed.

Lemma raise_tp_mono (fuel fuel' : nat) (s s' : Z) (q : Q) :
  s <= s' -> - s <= Z.of_nat fuel -> - s' <= Z.of_nat fuel' ->
  (snd (raise_tp this fuel' s' (Fin q)) <= snd (raise_tp this fuel s (Fin q)))%D.
Proof.
  revert fuel' s s' q. induction fuel as [| fuel IH]; intros fuel' s s' q Hs Hf Hf'.
  - rewrite !raise_tp_nonneg by lia. apply le_refl_Fin.
  - destruct (Z.ltb_spec s 0) as [Hn | Hn].
    2:{ rewrite !raise_tp_nonneg by lia. apply le_refl_Fin. }
    destruct (Z.ltb_spec s' 0) as [Hn' | Hn'].
    2:{ rewrite (raise_tp_nonneg fuel' s') by lia. apply raise_tp_ge. }
    destruct fuel' as [| fuel']; [lia |]. cbn [raise_tp].
    destruct (Z.ltb_spec s' 0); [| lia]. destruct (Z.ltb_spec s 0); [| lia].
    cbn [andb].
    destruct (Fin q <? of_int (max_transmissionPower this))%D.
    + change (Fin q + of_int 3)%D with (Fin (q + inject_Z 3)). apply IH; lia.
    + apply le_refl_Fin.
Qed.

(** More steps never give a higher spreading factor or a higher power. *)
Lemma StepPolicy_mono (s s' sf : Z) (q : Q) :
  s <= s' ->
  snd (fst (StepPolicy this s' sf (Fin q))) <= snd (fst (StepPolicy this s sf (Fin q))) /\
  (snd (StepPolicy this s' sf (Fin q)) <= snd (StepPolicy this s sf (Fin q)))%D.
Proof.
  intros H. rewrite !StepPolicy_unfold. cbv zeta. cbn [fst snd].
  set (d := Z.max 0 (Z.min s (sf - min_spreadingFactor this))).
  set (d' := Z.max 0 (Z.min s' (sf - min_spreadingFactor this))).
  assert (Hd : d <= d') by lia.
  assert (Hr : s - d <= s' - d') by lia.
  split; [lia |].
  destruct (Z.leb_spec 0 (s - d)) as [P | P];
    destruct (Z.leb_spec 0 (s' - d')) as [P' | P']; try lia.
  - apply lower_tp_mono; lia.
  - apply le_trans with (Fin q); [apply lower_tp_le | apply raise_tp_ge].
  - apply raise_tp_mono; lia.
Qed.

(** On the grid the whole policy has a closed form. *)
Lemma StepPolicy_grid (steps sf k : Z) (q : Q) :
  min_spreadingFactor this = 7 ->
  min_transmissionPower this = 2 ->
  max_transmissionPower this = 14 ->
  7 <= sf <= 12 -> 0 <= k <= 4 ->
  (q == inject_Z (2 + 3 * k))%Q ->
  exists s' sf' k' q',
    StepPolicy this steps sf (Fin q) = (s', sf', Fin q') /\
    (q' == inject_Z (2 + 3 * k'))%Q /\
    7 <= sf' <= 12 /\ 0 <= k' <= 4 /\
    (0 <= steps ->
       sf' = Z.max 7 (sf - steps) /\
       k' = Z.max 0 (k - (steps - (sf - sf'))) /\
       s' = steps - (sf - sf') - (k - k')) /\
    (steps < 0 -> sf' = sf /\ k' = Z.min 4 (k - steps) /\ s' = steps + (k' - k)).
Proof.
  intros Hsf Hlo Hhi Rsf Rk Hq. rewrite StepPolicy_unfold. cbv zeta. rewrite Hsf.
  set (d := Z.max 0 (Z.min steps (sf - 7))).
  destruct (Z.leb_spec 0 (steps - d)) as [P | P].
  - destruct (lower_tp_grid (Z.abs_nat (steps - d)) (steps - d) k q Hlo) as (q' & E & Hq');
      [lia | lia | exact Hq |].
    rewrite E. cbn [fst snd].
    exists (steps - d - Z.max 0 (Z.min (steps - d) k)), (sf - d),
      (k - Z.max 0 (Z.min (steps - d) k)), q'.
    repeat split; try assumption; try lia.
  - destruct (raise_tp_grid (Z.abs_nat (steps - d)) (steps - d) k q Hhi) as (q' & E & Hq');
      [lia | lia | exact Hq |].
    rewrite E. cbn [fst snd].
    exists (steps - d + Z.max 0 (Z.min (- (steps - d)) (4 - k))), (sf - d),
      (k + Z.max 0 (Z.min (- (steps - d)) (4 - k))), q'.
    repeat split; try assumption; try lia.
Qed.

(** The fuel [StepPolicy] gives its loops is enough: each loop is left
    with its condition false. *)
Lemma StepPolicy_loops_exit (steps sf : Z) (tp : double) :
  let '(s1, sf1) := lower_sf this (Z.abs_nat steps) steps sf in
  let '(s2, tp2) := lower_tp this (Z.abs_nat s1) s1 tp in
  let '(s3, tp3) := raise_tp this (Z.abs_nat s2) s2 tp2 in
  (s1 >? 0) && (sf1 >? min_spreadingFactor this) = false /\
  (s2 >? 0) && (tp2 >? of_int (min_transmissionPower this))%D = false /\
  (s3 <? 0) && (tp3 <? of_int (max_transmissionPower this))%D = false.
Proof.
  pose proof (lower_sf_exit (Z.abs_nat steps) steps sf ltac:(lia)) as H1.
  destruct (lower_sf this (Z.abs_nat steps) steps sf) as [s1 sf1].
  pose proof (lower_tp_exit (Z.abs_nat s1) s1 tp ltac:(lia)) as H2.
  destruct (lower_tp this (Z.abs_nat s1) s1 tp) as [s2 tp2].
  pose proof (raise_tp_exit (Z.abs_nat s2) s2 tp2 ltac:(lia)) as H3.
  destruct (raise_tp this (Z.abs_nat s2) s2 tp2) as [s3 tp3].
  auto.
Qed.

End StepPolicyFacts.

(** ** The history aggregates *)

Lemma Forall2_rev {A B : Type} (R : A -> B -> Prop) (l : list A) (l' : list B) :
  Forall2 R l l' -> Forall2 R (rev l) (rev l').
Proof.
  induction 1 as [| x y l l' Hxy _ IH]; [constructor |].
  cbn [rev]. apply Forall2_app; [exact IH | repeat constructor; exact Hxy].
Qed.

Lemma raised_no_lower (delta : Q) (x x' : double) :
  (0 < delta)%Q -> raised delta x x' -> no_lower x x'.
Proof.
  unfold raised. destruct x as [a |], x' as [b |]; simpl; try tauto.
  intros Hd H. lra.
Qed.

Lemma no_lower_le (x y : double) :
  no_lower x y -> is_finite x -> (x <= y)%D.
Proof. destruct x, y; simpl; tauto. Qed.

Lemma no_lower_refl (x : double) : no_lower x x.
Proof. destruct x; simpl; [lra | exact I]. Qed.

Lemma no_lower_select (m m' a a' : double) :
  no_lower m m' -> no_lower a a' ->
  no_lower (if (m >? a)%D then m else a) (if (m' >? a')%D then m' else a').
Proof.
  destruct m as [x |], m' as [x' |]; cbn [no_lower]; try tauto;
    destruct a as [y |], a' as [y' |]; cbn [no_lower]; try tauto; intros Hm Ha;
    try exact I; try exact Ha.
  destruct (Fin x >? Fin y)%D eqn:E, (Fin x' >? Fin y')%D eqn:E';
    try apply gtb_Fin in E; try apply gtb_Fin in E';
    try apply gtb_Fin_false in E; try apply gtb_Fin_false in E';
    cbn [no_lower]; lra.
Qed.

Lemma no_lower_sub (x x' y : double) :
  no_lower x x' -> no_lower (x - y)%D (x' - y)%D.
Proof.
  destruct x, x', y; simpl; try tauto. intros; lra.
Qed.

Lemma no_lower_div (x x' : double) (c : Z) :
  0 < c -> no_lower x x' -> no_lower (x / of_int c)%D (x' / of_int c)%D.
Proof.
  intros Hc. assert (Hq : (inject_Z 0 < inject_Z c)%Q) by (now rewrite <- Zlt_Qlt).
  change (inject_Z 0) with 0%Q in Hq.
  destruct x as [a |], x' as [b |]; simpl; try tauto.
  destruct (Qeq_bool (inject_Z c) 0) eqn:E.
  - apply Qeq_bool_iff in E. lra.
  - cbn [no_lower]. intros H. unfold Qdiv.
    apply Qmult_le_compat_r; [exact H |].
    apply Qlt_le_weak, Qinv_lt_0_compat, Hq.
Qed.

Lemma no_lower_floor (x x' : double) :
  no_lower x x' -> no_lower (floor x) (floor x').
Proof.
  destruct x, x'; simpl; try tauto. intros H.
  rewrite <- Zle_Qle. now apply Qfloor_resp_le.
Qed.

Lemma no_lower_to_int (x x' : double) (n n' : Z) :
  no_lower x x' -> to_int x = Some n -> to_int x' = Some n' -> n <= n'.
Proof.
  intros H Hn Hn'. apply (to_int_mono x x'); try assumption.
  apply no_lower_le; [exact H |]. destruct x; [exact I | discriminate].
Qed.

Section Aggregates.

Variable log10 : double -> double.
Variable this : AdrComponent.

Lemma GetMaxSNR_loop_defined (n : nat) (it : ReceivedPacketList) (max : double) :
  (n <= length it)%nat -> exists r, GetMaxSNR_loop log10 this n it max = Some r.
Proof.
  revert it max. induction n as [| n IH]; intros it max H.
  - now exists max.
  - destruct it as [| [pkt info] it]; [simpl in H; lia |].
    cbn [GetMaxSNR_loop]. apply IH. simpl in H. lia.
Qed.

(** The running maximum never leaves its start value behind. *)
Lemma GetMaxSNR_loop_floor (n : nat) (it : ReceivedPacketList) (max r : double) :
  GetMaxSNR_loop log10 this n it max = Some r ->
  r = max \/ (max <? r)%D = true.
Proof.
  revert it max. induction n as [| n IH]; intros it max H.
  - left. simpl in H. congruence.
  - destruct it as [| [pkt info] it]; [discriminate |].
    cbn [GetMaxSNR_loop] in H. cbv zeta in H.
    set (m := TxPowerToSNR log10 this (GetReceivedPower log10 this (gwList info))) in H.
    destruct (m >? max)%D eqn:E.
    + apply IH in H. destruct H as [-> | H]; [right; exact E |].
      right. unfold gtb in E.
      destruct max as [a |], m as [b |], r as [c |]; try discriminate.
      apply ltb_Fin in E. apply ltb_Fin in H. apply ltb_Fin. lra.
    + now apply IH in H.
Qed.

(** With no sample above the start value the start value is returned. *)
Lemma GetMaxSNR_loop_below (n : nat) (it : ReceivedPacketList) (max r : double) :
  Forall (fun p => (PacketSNR log10 this p >? max)%D = false) (firstn n it) ->
  GetMaxSNR_loop log10 this n it max = Some r -> r = max.
Proof.
  revert it. induction n as [| n IH]; intros it Hall H.
  - simpl in H. congruence.
  - destruct it as [| [pkt info] it]; [discriminate |].
    cbn [GetMaxSNR_loop] in H. cbv zeta in H. cbn [firstn] in Hall.
    inversion Hall as [| p l Hp Hl]; subst.
    unfold PacketSNR in Hp. cbn [snd] in Hp. rewrite Hp in H.
    now apply IH in H.
Qed.

Lemma GetMaxSNR_loop_mono (delta : Q) (n : nat) (it it' : ReceivedPacketList)
    (max max' r r' : double) :
  (0 < delta)%Q ->
  Forall2 (fun p p' => raised delta (PacketSNR log10 this p) (PacketSNR log10 this p')) it it' ->
  no_lower max max' ->
  GetMaxSNR_loop log10 this n it max = Some r ->
  GetMaxSNR_loop log10 this n it' max' = Some r' ->
  no_lower r r'.
Proof.
  intros Hd. revert it it' max max'.
  induction n as [| n IH]; intros it it' max max' HF Hm H H'.
  - simpl in H, H'. congruence.
  - destruct HF as [| [pkt info] [pkt' info'] it it' Hp HF]; [discriminate |].
    cbn [GetMaxSNR_loop] in H, H'. cbv zeta in H, H'.
    refine (IH _ _ _ _ HF _ H H').
    apply no_lower_select; [| exact Hm].
    apply (raised_no_lower delta); [exact Hd | exact Hp].
Qed.

Lemma GetAverageSNR_loop_spec (n : nat) (it : ReceivedPacketList)
    (sum : double) (m_SNR : option double) :
  (n <= length it)%nat ->
  GetAverageSNR_loop log10 this n it sum m_SNR =
    Some (fold_left add (map (PacketSNR log10 this) (firstn n it)) sum,
          match n with
          | O => m_SNR
          | S n' => option_map (PacketSNR log10 this) (nth_error it n')
          end).
Proof.
  revert it sum m_SNR. induction n as [| n IH]; intros it sum m_SNR H.
  - reflexivity.
  - destruct it as [| [pkt info] it]; [simpl in H; lia |].
    cbn [GetAverageSNR_loop]. cbv zeta. rewrite IH by (simpl in H; lia).
    cbn [firstn map fold_left]. f_equal. f_equal.
    destruct n; reflexivity.
Qed.

Lemma GetAverageSNR_loop_short (n : nat) (it : ReceivedPacketList)
    (sum : double) (m_SNR : option double) :
  (length it < n)%nat -> GetAverageSNR_loop log10 this n it sum m_SNR = None.
Proof.
  revert it sum m_SNR. induction n as [| n IH]; intros it sum m_SNR H; [lia |].
  destruct it as [| [pkt info] it]; [reflexivity |].
  cbn [GetAverageSNR_loop]. apply IH. simpl in H. lia.
Qed.

(** What [GetAverageSNR] returns: the SNR of the oldest packet of the
    window, divided by [historyRange]. *)
Lemma GetAverageSNR_last_sample (packetList : ReceivedPacketList) (historyRange : Z) :
  0 < historyRange <= Z.of_nat (length packetList) ->
  exists p,
    nth_error (rev packetList) (Z.to_nat historyRange - 1) = Some p /\
    GetAverageSNR log10 this packetList historyRange =
      Some (PacketSNR log10 this p / of_int historyRange)%D.
Proof.
  intros H. unfold GetAverageSNR.
  rewrite GetAverageSNR_loop_spec by (rewrite length_rev; lia).
  destruct (Z.to_nat historyRange) as [| n] eqn:E; [lia |].
  replace (S n - 1)%nat with n by lia.
  destruct (nth_error (rev packetList) n) as [p |] eqn:En.
  - exists p. split; reflexivity.
  - apply nth_error_None in En. rewrite length_rev in En. lia.
Qed.

Lemma GetAverageSNR_defined_iff (packetList : ReceivedPacketList) (historyRange : Z) :
  (exists r, GetAverageSNR log10 this packetList historyRange = Some r) <->
  0 < historyRange <= Z.of_nat (length packetList).
Proof.
  split.
  - intros [r H]. unfold GetAverageSNR in H.
    destruct (Nat.le_gt_cases (Z.to_nat historyRange) (length (rev packetList))) as [L | L].
    + rewrite GetAverageSNR_loop_spec in H by exact L.
      rewrite length_rev in L.
      destruct (Z.to_nat historyRange) eqn:E; [discriminate | lia].
    + rewrite GetAverageSNR_loop_short in H by exact L. discriminate.
  - intros H. destruct (GetAverageSNR_last_sample packetList historyRange H) as (p & _ & E).
    eauto.
Qed.

Lemma GetAverageSNR_loop_mono (delta : Q) (n : nat) (it it' : ReceivedPacketList)
    (sum sum' : double) (m m' : option double) (s s' : double) (r r' : option double) :
  Forall2 (fun p p' => raised delta (PacketSNR log10 this p) (PacketSNR log10 this p')) it it' ->
  opt_raised delta m m' ->
  GetAverageSNR_loop log10 this n it sum m = Some (s, r) ->
  GetAverageSNR_loop log10 this n it' sum' m' = Some (s', r') ->
  opt_raised delta r r'.
Proof.
  revert it it' sum sum' m m'.
  induction n as [| n IH]; intros it it' sum sum' m m' HF Hm H H'.
  - simpl in H, H'. congruence.
  - destruct HF as [| [pkt info] [pkt' info'] it it' Hp HF]; [discriminate |].
    cbn [GetAverageSNR_loop] in H, H'. cbv zeta in H, H'.
    refine (IH _ _ _ _ _ _ HF _ H H'). exact Hp.
Qed.

End Aggregates.

(** ** Data rate and required SNR *)

(** The data rate handed to the reply is the final spreading factor minus
    7, whatever the device. *)
Lemma AdrImplementation_data_rate (log10 : double -> double) (this : AdrComponent)
    (status : EndDeviceStatus) (newDataRate newTxPower : Z) :
  AdrImplementation log10 this status = Some (newDataRate, newTxPower) ->
  exists sf tp,
    AdrDecision log10 this status = Some (sf, tp) /\
    newDataRate = sf - 7 /\ to_int tp = Some newTxPower.
Proof.
  unfold AdrImplementation.
  destruct (AdrDecision log10 this status) as [[sf tp] |]; [| discriminate].
  destruct (to_int tp) as [n |] eqn:E; [| discriminate].
  intros H. injection H as <- <-. exists sf, tp. auto.
Qed.

(** C1 (the code departs from the claim).  At spreading factor 7 the claim
    gives data rate 12 - 7 = 5 and a required SNR of -7.5 dB.  The code
    computes the data rate as [sf - 7]: the index is 0, the required SNR read
    from the table is -20 dB, and for a device at SF 7 and 14 dBm with twenty
    uplinks heard at -80 dBm the command staged carries data rate 0. *)
Theorem C1_sf7_has_data_rate_0 :
  SfToDr 7 = 0 /\
  SfToDr 7 <> 12 - 7 /\
  index (treshold default) (SfToDr 7) = Some (Fin (-20)) /\
  index (treshold default) (12 - 7) = Some (Fin (-15 # 2)) /\
  option_map fst (AdrDecision log10_approx default (device 7 14 (steady (-80)))) = Some 7 /\
  AdrImplementation log10_approx default (device 7 14 (steady (-80))) = Some (0, 5) /\
  option_map (fun s => commands (frameHeader (m_reply s)))
    (BeforeSendingReply log10_approx default (device 7 14 (steady (-80))))
  = Some [LinkAdrReq 0 5 [1; 2; 3] 1].
Proof.
  repeat split; try (vm_compute; reflexivity). vm_compute. discriminate.
Qed.

(** ** The average over the history *)

(** C2 (the code departs from the claim).  For twenty uplinks heard at
    -80 dBm every per-packet SNR is 37.0309 dB and so is their mean;
    [GetAverageSNR] returns 1.851545 dB, the last sample it computed divided
    by 20. *)
Theorem C2_average_is_last_sample_over_range :
  exists r,
    GetAverageSNR log10_approx default (steady (-80)) 20 = Some r /\
    (r == Fin (1851545 # 1000000))%D /\
    (mean_SNR log10_approx default (steady (-80)) 20 == Fin (370309 # 10000))%D /\
    ~ (r == mean_SNR log10_approx default (steady (-80)) 20)%D.
Proof.
  eexists. split; [vm_compute; reflexivity |].
  repeat split; try (vm_compute; reflexivity).
  vm_compute. discriminate.
Qed.

(** ** The max policy over gateways *)

(** Under the max policy the per-packet estimate converts twice. *)
Lemma PacketSNR_max_policy (log10 : double -> double) (this : AdrComponent)
    (p : Packet * ReceivedPacketInfo) :
  tpAveraging this = false ->
  PacketSNR log10 this p =
    TxPowerToSNR log10 this
      (TxPowerToSNR log10 this (GetMaxTxFromGateways this (gwList (snd p)))).
Proof.
  intros H. unfold PacketSNR, GetReceivedPower. now rewrite H.
Qed.

(** Under the average policy it converts once. *)
Lemma PacketSNR_average_policy (log10 : double -> double) (this : AdrComponent)
    (p : Packet * ReceivedPacketInfo) :
  tpAveraging this = true ->
  PacketSNR log10 this p =
    TxPowerToSNR log10 this (GetAverageTxFromGateways (gwList (snd p))).
Proof.
  intros H. unfold PacketSNR, GetReceivedPower. now rewrite H.
Qed.

(** C3 (the code departs from the claim).  One gateway reports 5 dBm: the
    maximum reported power is 5 dBm and the formula gives
    5 + 174 - 50.9691 - 6 = 122.0309 dB.  Under the max policy the
    per-packet SNR the history aggregation uses is 239.0618 dB: the formula
    applied to 122.0309, that is, applied twice. *)
Theorem C3_max_policy_converts_twice :
  max_rxPower (gwList (snd (uplink 5))) = Some 5%Q /\
  (TxPowerToSNR log10_approx max_over_gateways (Fin 5) == Fin (1220309 # 10000))%D /\
  (PacketSNR log10_approx max_over_gateways (uplink 5) == Fin (2390618 # 10000))%D /\
  (exists r,
     GetAverageSNR log10_approx max_over_gateways [uplink 5] 1 = Some r /\
     (r == Fin (2390618 # 10000))%D) /\
  ~ (PacketSNR log10_approx max_over_gateways (uplink 5)
     == TxPowerToSNR log10_approx max_over_gateways (Fin 5))%D.
Proof.
  repeat split; try (vm_compute; reflexivity).
  - eexists. split; vm_compute; reflexivity.
  - vm_compute. discriminate.
Qed.

(** ** Packets without a gateway report *)

(** C4 (the code departs from the claim).  For an empty report list the
    average path divides the empty sum by the size 0 and returns NaN, where
    the max path returns the minimum transmission power (2 dBm).  The NaN
    reaches the conversion to [int] of the step count: the decision is
    undefined. *)
Theorem C4_empty_report_list_divides_by_zero :
  GetAverageTxFromGateways [] = NaN /\
  GetMaxTxFromGateways default [] = of_int 2 /\
  GetReceivedPower log10_approx default (gwList (snd unheard)) = NaN /\
  PacketSNR log10_approx default unheard = NaN /\
  GetAverageSNR log10_approx default (repeat unheard 20) 20 = Some NaN /\
  AdrImplementation log10_approx default (device 7 14 (repeat unheard 20)) = None.
Proof.
  repeat split; vm_compute; reflexivity.
Qed.

(** ** The index into the threshold table *)

(** C5, counterexample.  The index is not brought back into 0..5: at
    spreading factor 13 it is 6 and at spreading factor 6 it is -1; the read
    of the table in [AdrImplementation] is out of bounds, and so is the
    decision of [BeforeSendingReply] for such a device. *)
Lemma C5_index_not_clamped :
  ~ (0 <= SfToDr 13 <= 5) /\
  index (treshold default) (SfToDr 13) = None /\
  AdrSteps log10_approx default (device 13 14 (steady (-80))) = None /\
  BeforeSendingReply log10_approx default (device 13 14 (steady (-80))) = None /\
  ~ (0 <= SfToDr 6 <= 5) /\
  index (treshold default) (SfToDr 6) = None /\
  AdrSteps log10_approx default (device 6 14 (steady (-80))) = None /\
  BeforeSendingReply log10_approx default (device 6 14 (steady (-80))) = None.
Proof.
  repeat split; try (vm_compute; reflexivity); unfold SfToDr; lia.
Qed.

(** C5, as amended.  With its table of 6 entries, [AdrImplementation] reads
    the required SNR in bounds exactly when the spreading factor of the
    device is in 7..12.  For such a spreading factor the index [SfToDr sf]
    lies in 0..5 and the entry read is the one the step count is computed
    from; for any other spreading factor the index is outside 0..5, nothing
    clamps it, and the step count, the decision and the pair handed to the
    reply are undefined.  So a defined step count implies a spreading factor
    in 7..12. *)
Theorem C5_table_read_in_bounds_iff_sf_in_range
    (log10 : double -> double) (this : AdrComponent) (status : EndDeviceStatus) :
  length (treshold this) = 6%nat ->
  let sf := GetFirstReceiveWindowSpreadingFactor status in
  let m_SNR :=
    if historyAveraging this
    then GetAverageSNR log10 this (GetReceivedPacketList status) (historyRange this)
    else GetMaxSNR log10 this (GetReceivedPacketList status) (historyRange this) in
  (7 <= sf <= 12 ->
   0 <= SfToDr sf <= 5 /\
   exists req_SNR,
     nth_error (treshold this) (Z.to_nat (SfToDr sf)) = Some req_SNR /\
     AdrSteps log10 this status =
       match m_SNR with
       | Some m => to_int (floor ((m - req_SNR - of_int (offset this)) / of_int 3)%D)
       | None => None
       end) /\
  (~ 7 <= sf <= 12 ->
   ~ 0 <= SfToDr sf <= 5 /\
   AdrSteps log10 this status = None /\
   AdrDecision log10 this status = None /\
   AdrImplementation log10 this status = None) /\
  (forall steps, AdrSteps log10 this status = Some steps -> 7 <= sf <= 12).
Proof.
  intros Hlen. cbv zeta.
  assert (Hout : ~ 7 <= GetFirstReceiveWindowSpreadingFactor status <= 12 ->
                 AdrSteps log10 this status = None).
  { intros Hsf. unfold AdrSteps.
    destruct (if historyAveraging this
              then GetAverageSNR log10 this (GetReceivedPacketList status)
                     (historyRange this)
              else GetMaxSNR log10 this (GetReceivedPacketList status)
                     (historyRange this)); [| reflexivity].
    replace (index (treshold this)
               (SfToDr (GetFirstReceiveWindowSpreadingFactor status)))
      with (@None double); [reflexivity |].
    unfold index, SfToDr.
    destruct (Z.ltb_spec (GetFirstReceiveWindowSpreadingFactor status - 7) 0);
      [reflexivity |].
    symmetry. apply nth_error_None. rewrite Hlen. lia. }
  split; [| split].
  - intros Hsf. split; [unfold SfToDr; lia |].
    destruct (nth_error (treshold this)
                (Z.to_nat (SfToDr (GetFirstReceiveWindowSpreadingFactor status))))
      as [req |] eqn:E.
    + exists req. split; [reflexivity |]. unfold AdrSteps, index.
      destruct (Z.ltb_spec (SfToDr (GetFirstReceiveWindowSpreadingFactor status)) 0)
        as [L | L]; [unfold SfToDr in L; lia |].
      rewrite E. reflexivity.
    + apply nth_error_None in E. rewrite Hlen in E. unfold SfToDr in E. lia.
  - intros Hsf. split; [unfold SfToDr; lia |].
    pose proof (Hout Hsf) as Hs. split; [exact Hs |].
    unfold AdrImplementation, AdrDecision. rewrite Hs. split; reflexivity.
  - intros steps Hs.
    destruct (Z.le_gt_cases 7 (GetFirstReceiveWindowSpreadingFactor status)) as [A | A];
      [destruct (Z.le_gt_cases (GetFirstReceiveWindowSpreadingFactor status) 12)
         as [C | C]; [lia |] |];
      rewrite Hout in Hs by lia; discriminate.
Qed.

(** C5 at work on the component as shipped: a device at SF 12 reads an
    entry of the table, at an index in 0..5, and its step count of -1 comes
    with a spreading factor in 7..12. *)
Lemma C5_witness :
  AdrSteps log10_approx default (device 12 14 (steady (-80))) = Some (-1) /\
  0 <= SfToDr 12 <= 5 /\
  (exists req_SNR,
     nth_error (treshold default) (Z.to_nat (SfToDr 12)) = Some req_SNR) /\
  7 <= 12 <= 12.
Proof.
  assert (Hs : AdrSteps log10_approx default (device 12 14 (steady (-80))) = Some (-1))
    by (vm_compute; reflexivity).
  pose proof (C5_table_read_in_bounds_iff_sf_in_range
                log10_approx default (device 12 14 (steady (-80))) eq_refl)
    as (Hin & _ & Hdef).
  split; [exact Hs |].
  destruct (Hin ltac:(cbn; lia)) as (Hr & req & Hn & _).
  split; [exact Hr |]. split; [exists req; exact Hn |].
  exact (Hdef (-1) Hs).
Defined.

(** ** The number of steps *)

Lemma AdrSteps_defined (log10 : double -> double) (this : AdrComponent)
    (status : EndDeviceStatus) (m req : Q) :
  (if historyAveraging this
   then GetAverageSNR log10 this (GetReceivedPacketList status) (historyRange this)
   else GetMaxSNR log10 this (GetReceivedPacketList status) (historyRange this))
  = Some (Fin m) ->
  index (treshold this) (SfToDr (GetFirstReceiveWindowSpreadingFactor status))
  = Some (Fin req) ->
  INT_MIN <= Qfloor ((m - req - inject_Z (offset this)) / inject_Z 3) <= INT_MAX ->
  AdrSteps log10 this status
  = Some (Qfloor ((m - req - inject_Z (offset this)) / inject_Z 3)).
Proof.
  intros Hm Hr Hi. unfold AdrSteps. rewrite Hm, Hr.
  change (to_int (of_int (Qfloor ((m - req - inject_Z (offset this)) / inject_Z 3)))
          = Some (Qfloor ((m - req - inject_Z (offset this)) / inject_Z 3))).
  now apply to_int_of_int.
Qed.

(** ** The hook before a reply *)

Lemma app_singleton_neq {A : Type} (l : list A) (x : A) : l = l ++ [x] -> False.
Proof.
  intros H. apply (f_equal (@length A)) in H.
  rewrite length_app in H. simpl in H. lia.
Qed.

(** C6.  [BeforeSendingReply] sets the needs-reply flag and stages a
    LinkAdrReq command (appended to the commands of the reply's frame
    header, which is marked downlink, the MAC header unconfirmed data down)
    exactly when the last uplink has its ADR bit set and the history holds
    at least [historyRange] packets; it then stages the pair that
    [AdrImplementation] computes.  In every other case it returns the
    device record as it was. *)
Theorem C6_reply_staged_iff_requested_and_enough_history
    (log10 : double -> double) (this : AdrComponent) (status : EndDeviceStatus) :
  let gate :=
    GetAdr (GetLastPacketReceivedFromDevice status) = true /\
    historyRange this <= Z.of_nat (length (GetReceivedPacketList status)) in
  (~ gate -> BeforeSendingReply log10 this status = Some status) /\
  (gate ->
   BeforeSendingReply log10 this status =
     option_map (fun d => stage status (fst d) (snd d))
       (AdrImplementation log10 this status)) /\
  (forall status',
     BeforeSendingReply log10 this status = Some status' ->
     (needsReply (m_reply status') = true /\
      direction (frameHeader (m_reply status')) = Downlink /\
      mtype (macHeader (m_reply status')) = UNCONFIRMED_DATA_DOWN /\
      exists newDataRate newTxPower,
        AdrImplementation log10 this status = Some (newDataRate, newTxPower) /\
        commands (frameHeader (m_reply status')) =
          commands (frameHeader (m_reply status))
          ++ [LinkAdrReq newDataRate newTxPower [1; 2; 3] 1])
     <-> gate).
Proof.
  cbv zeta. unfold BeforeSendingReply.
  destruct (GetAdr (GetLastPacketReceivedFromDevice status)) eqn:Eadr.
  2:{ split; [reflexivity |]. split; [intros [H _]; discriminate |].
      intros status' H. injection H as <-.
      split; [| intros [H _]; discriminate].
      intros (_ & _ & _ & dr & tp & _ & Hc). exfalso.
      exact (app_singleton_neq _ _ Hc). }
  destruct (Z.ltb_spec (Z.of_nat (length (GetReceivedPacketList status)))
              (historyRange this)) as [Hlen | Hlen].
  { split; [reflexivity |]. split; [intros [_ H]; lia |].
    intros status' H. injection H as <-.
    split; [| intros [_ H]; lia].
    intros (_ & _ & _ & dr & tp & _ & Hc). exfalso.
    exact (app_singleton_neq _ _ Hc). }
  split; [intros H; exfalso; apply H; split; [reflexivity | lia] |].
  split.
  - intros _. destruct (AdrImplementation log10 this status) as [[dr tp] |]; reflexivity.
  - intros status' H. split; [intros _; split; [reflexivity | lia] | intros _].
    destruct (AdrImplementation log10 this status) as [[dr tp] |]; [| discriminate].
    injection H as <-. cbn. repeat split. exists dr, tp. split; reflexivity.
Qed.

(** ** Bounds of the decision *)

(** C7.  With the bounds 7, 2 and 14 of the component, a device at a
    spreading factor in 7..12 and at a power [2 + 3 k] dBm with [k] in 0..4,
    and any number of steps the margin gives: the decision is produced, its
    spreading factor is in 7..12, its power is [2 + 3 k'] dBm with [k'] in
    0..4 (within 2..14 dBm, a multiple of 3 dB away from the initial power),
    and it saturates: with [steps >= 0] the spreading factor is
    [max 7 (sf - steps)] and the steps left move the power down to no less
    than 2 dBm; with [steps < 0] the spreading factor is kept and the power
    moves up to no more than 14 dBm. *)
Theorem C7_decision_within_bounds_and_saturating
    (log10 : double -> double) (this : AdrComponent) (status : EndDeviceStatus)
    (k steps : Z) :
  min_spreadingFactor this = 7 ->
  min_transmissionPower this = 2 ->
  max_transmissionPower this = 14 ->
  7 <= GetFirstReceiveWindowSpreadingFactor status <= 12 ->
  0 <= k <= 4 ->
  (GetTransmissionPower status == of_int (2 + 3 * k))%D ->
  AdrSteps log10 this status = Some steps ->
  exists sf' k' tp',
    AdrDecision log10 this status = Some (sf', tp') /\
    AdrImplementation log10 this status = Some (SfToDr sf', 2 + 3 * k') /\
    7 <= sf' <= 12 /\
    0 <= k' <= 4 /\
    (tp' == of_int (2 + 3 * k'))%D /\
    (of_int 2 <= tp')%D /\ (tp' <= of_int 14)%D /\
    (tp' == GetTransmissionPower status + of_int (3 * (k' - k)))%D /\
    (0 <= steps ->
       sf' = Z.max 7 (GetFirstReceiveWindowSpreadingFactor status - steps) /\
       k' = Z.max 0 (k - (steps - (GetFirstReceiveWindowSpreadingFactor status - sf')))) /\
    (steps < 0 ->
       sf' = GetFirstReceiveWindowSpreadingFactor status /\
       k' = Z.min 4 (k - steps)).
Proof.
  intros Hsf Hlo Hhi Rsf Rk Htp Hsteps.
  destruct (GetTransmissionPower status) as [q |] eqn:Eq; [| contradiction].
  cbn [Double.eq of_int] in Htp.
  destruct (StepPolicy_grid this steps (GetFirstReceiveWindowSpreadingFactor status)
              k q Hsf Hlo Hhi Rsf Rk Htp)
    as (s' & sf' & k' & q' & E & Hq' & Rsf' & Rk' & Hpos & Hneg).
  exists sf', k', (Fin q').
  assert (Ed : AdrDecision log10 this status = Some (sf', Fin q')).
  { unfold AdrDecision. rewrite Hsteps, Eq, E. reflexivity. }
  split; [exact Ed |]. split.
  { unfold AdrImplementation. rewrite Ed.
    assert (Hq'' : (Fin q' == of_int (2 + 3 * k'))%D) by exact Hq'.
    rewrite (to_int_eq _ _ Hq''), to_int_of_int; [reflexivity |].
    unfold INT_MIN, INT_MAX. lia. }
  split; [exact Rsf' |]. split; [exact Rk' |]. split; [exact Hq' |].
  cbn [Double.le Double.eq of_int add lift2].
  split; [rewrite Hq', <- Zle_Qle; lia |].
  split; [rewrite Hq', <- Zle_Qle; lia |].
  split.
  { rewrite Hq', Htp, <- inject_Z_plus. apply inject_Z_injective. lia. }
  split; [intros H; destruct (Hpos H) as (? & ? & ?); auto
         | intros H; destruct (Hneg H) as (? & ? & ?); auto].
Qed.

(** ** Monotonicity in the SNR estimates *)

Section Monotone.

Variable log10 : double -> double.
Variable this : AdrComponent.
Variable delta : Q.
Hypothesis delta_pos : (0 < delta)%Q.

Variables packetList packetList' : ReceivedPacketList.
Hypothesis packets_raised :
  Forall2 (fun p p' => raised delta (PacketSNR log10 this p) (PacketSNR log10 this p'))
    packetList packetList'.

Lemma GetMaxSNR_mono (historyRange : Z) (r r' : double) :
  GetMaxSNR log10 this packetList historyRange = Some r ->
  GetMaxSNR log10 this packetList' historyRange = Some r' ->
  no_lower r r'.
Proof.
  unfold GetMaxSNR. cbv zeta.
  apply (GetMaxSNR_loop_mono log10 this delta); [exact delta_pos | | apply no_lower_refl].
  apply Forall2_rev, packets_raised.
Qed.

Lemma GetAverageSNR_mono (historyRange : Z) (r r' : double) :
  GetAverageSNR log10 this packetList historyRange = Some r ->
  GetAverageSNR log10 this packetList' historyRange = Some r' ->
  no_lower r r'.
Proof.
  intros H H'.
  assert (Hpos : 0 < historyRange).
  { apply (GetAverageSNR_defined_iff log10 this packetList historyRange). eauto. }
  unfold GetAverageSNR in H, H'.
  destruct (GetAverageSNR_loop log10 this (Z.to_nat historyRange) (rev packetList)
              (of_int 0) None) as [[s [m |]] |] eqn:E; try discriminate.
  destruct (GetAverageSNR_loop log10 this (Z.to_nat historyRange) (rev packetList')
              (of_int 0) None) as [[s' [m' |]] |] eqn:E'; try discriminate.
  injection H as <-. injection H' as <-.
  apply no_lower_div; [exact Hpos |].
  apply (raised_no_lower delta); [exact delta_pos |].
  change (opt_raised delta (Some m) (Some m')).
  refine (GetAverageSNR_loop_mono log10 this delta _ _ _ _ _ None None _ _ _ _ _ _ E E').
  - apply Forall2_rev, packets_raised.
  - exact I.
Qed.

Lemma AdrSteps_mono (status status' : EndDeviceStatus) (s s' : Z) :
  GetReceivedPacketList status = packetList ->
  GetReceivedPacketList status' = packetList' ->
  GetFirstReceiveWindowSpreadingFactor status'
  = GetFirstReceiveWindowSpreadingFactor status ->
  AdrSteps log10 this status = Some s ->
  AdrSteps log10 this status' = Some s' ->
  s <= s'.
Proof.
  intros Hl Hl' Hsf. unfold AdrSteps. rewrite Hl, Hl', Hsf.
  set (agg := fun l => if historyAveraging this
                       then GetAverageSNR log10 this l (historyRange this)
                       else GetMaxSNR log10 this l (historyRange this)).
  change (match agg packetList with
          | Some m_SNR =>
              match index (treshold this)
                      (SfToDr (GetFirstReceiveWindowSpreadingFactor status)) with
              | Some req_SNR =>
                  to_int (floor ((m_SNR - req_SNR - of_int (offset this)) / of_int 3)%D)
              | None => None
              end
          | None => None
          end = Some s ->
          match agg packetList' with
          | Some m_SNR =>
              match index (treshold this)
                      (SfToDr (GetFirstReceiveWindowSpreadingFactor status)) with
              | Some req_SNR =>
                  to_int (floor ((m_SNR - req_SNR - of_int (offset this)) / of_int 3)%D)
              | None => None
              end
          | None => None
          end = Some s' -> s <= s').
  assert (Hagg : forall r r', agg packetList = Some r -> agg packetList' = Some r' ->
                              no_lower r r').
  { unfold agg. destruct (historyAveraging this);
      [apply GetAverageSNR_mono | apply GetMaxSNR_mono]. }
  destruct (agg packetList) as [m |]; [| discriminate].
  destruct (agg packetList') as [m' |]; [| discriminate].
  specialize (Hagg m m' eq_refl eq_refl).
  destruct (index (treshold this) (SfToDr (GetFirstReceiveWindowSpreadingFactor status)))
    as [req |]; [| discriminate].
  apply no_lower_to_int, no_lower_floor, no_lower_div; [lia |].
  now apply no_lower_sub, no_lower_sub.
Qed.

End Monotone.

(** C8.  Two snapshots of a device with the same spreading factor and the
    same (finite) transmission power, whose histories have the same length
    and, packet by packet, per-packet SNR estimates raised by the same
    [delta > 0] in the second: whenever both decisions are produced, the
    second has a spreading factor and a transmission power no higher than
    the first, and so has the power converted to [int] for the reply. *)
Theorem C8_raised_SNR_never_raises_decision
    (log10 : double -> double) (this : AdrComponent)
    (status status' : EndDeviceStatus) (delta : Q)
    (sf1 sf2 : Z) (tp1 tp2 : double) :
  (0 < delta)%Q ->
  GetFirstReceiveWindowSpreadingFactor status'
  = GetFirstReceiveWindowSpreadingFactor status ->
  GetTransmissionPower status' = GetTransmissionPower status ->
  is_finite (GetTransmissionPower status) ->
  Forall2 (fun p p' => raised delta (PacketSNR log10 this p) (PacketSNR log10 this p'))
    (GetReceivedPacketList status) (GetReceivedPacketList status') ->
  AdrDecision log10 this status = Some (sf1, tp1) ->
  AdrDecision log10 this status' = Some (sf2, tp2) ->
  sf2 <= sf1 /\ (tp2 <= tp1)%D /\
  (forall p1 p2, to_int tp1 = Some p1 -> to_int tp2 = Some p2 -> p2 <= p1).
Proof.
  intros Hd Hsf Htp Hfin HF. unfold AdrDecision.
  destruct (AdrSteps log10 this status) as [s |] eqn:Es; [| discriminate].
  destruct (AdrSteps log10 this status') as [s' |] eqn:Es'; [| discriminate].
  assert (Hs : s <= s').
  { exact (AdrSteps_mono log10 this delta Hd _ _ HF status status' s s'
             eq_refl eq_refl Hsf Es Es'). }
  rewrite Hsf, Htp.
  destruct (GetTransmissionPower status) as [q |]; [| contradiction].
  pose proof (StepPolicy_mono this s s' (GetFirstReceiveWindowSpreadingFactor status) q Hs)
    as [Msf Mtp].
  destruct (StepPolicy this s (GetFirstReceiveWindowSpreadingFactor status) (Fin q))
    as [[x1 y1] z1].
  destruct (StepPolicy this s' (GetFirstReceiveWindowSpreadingFactor status) (Fin q))
    as [[x2 y2] z2].
  cbn [fst snd] in Msf, Mtp.
  intros H1 H2. injection H1 as <- <-. injection H2 as <- <-.
  split; [exact Msf |]. split; [exact Mtp |].
  intros p1 p2 T1 T2. exact (to_int_mono z2 z1 p2 p1 Mtp T2 T1).
Qed.

(** ** Floors of the two maxima *)

Lemma ltb_asym (x y : double) : (x <? y)%D = true -> (x >? y)%D = false.
Proof.
  unfold gtb. destruct x as [a |], y as [b |]; try discriminate.
  intros H. apply ltb_Fin in H. apply ltb_Fin_false. lra.
Qed.

Lemma GetMaxTxFromGateways_loop_ge (it : GatewayList) (a : Q) :
  exists b, GetMaxTxFromGateways_loop it (Fin a) = Fin b /\ (a <= b)%Q.
Proof.
  revert a. induction it as [| [addr info] it IH]; intros a.
  - exists a. split; [reflexivity | lra].
  - cbn [GetMaxTxFromGateways_loop].
    destruct (rxPower info >? Fin a)%D eqn:E.
    + destruct (rxPower info) as [p |]; [| discriminate].
      apply gtb_Fin in E. destruct (IH p) as (b & Eb & Hb).
      exists b. split; [exact Eb | lra].
    + apply IH.
Qed.

Lemma GetMaxTxFromGateways_loop_below (it : GatewayList) (max : double) :
  Forall (fun e => (rxPower (snd e) <? max)%D = true) it ->
  GetMaxTxFromGateways_loop it max = max.
Proof.
  induction 1 as [| [addr info] it Hx _ IH]; [reflexivity |].
  cbn [GetMaxTxFromGateways_loop]. cbn [snd] in Hx.
  rewrite (ltb_asym _ _ Hx). exact IH.
Qed.

Lemma max_rxPower_below (it : GatewayList) (max : double) (m : Q) :
  Forall (fun e => (rxPower (snd e) <? max)%D = true) it ->
  max_rxPower it = Some m -> (Fin m <? max)%D = true.
Proof.
  intros H. revert m. induction H as [| [addr info] it Hx _ IH]; intros m; [discriminate |].
  cbn [max_rxPower fold_right snd] in *. fold (max_rxPower it).
  destruct (rxPower info) as [p |]; [| discriminate].
  destruct (max_rxPower it) as [m0 |].
  - destruct (Qle_bool p m0); intros E; injection E as <-; [now apply IH | exact Hx].
  - intros E. injection E as <-. exact Hx.
Qed.

(** C9.  Whatever the reports, [GetMaxTxFromGateways] returns a number that
    is at least the minimum transmission power, 2 dBm in the component as
    shipped; when every report is below that floor it returns the floor,
    which is above the true maximum of the reports. *)
Theorem C9_max_over_gateways_floor (this : AdrComponent) (gwList : GatewayList) :
  (of_int (min_transmissionPower this) <= GetMaxTxFromGateways this gwList)%D /\
  (Forall (fun e => (rxPower (snd e) <? of_int (min_transmissionPower this))%D = true)
     gwList ->
   GetMaxTxFromGateways this gwList = of_int (min_transmissionPower this) /\
   forall m, max_rxPower gwList = Some m ->
             (Fin m <? GetMaxTxFromGateways this gwList)%D = true) /\
  min_transmissionPower default = 2.
Proof.
  unfold GetMaxTxFromGateways, of_int. split.
  - destruct (GetMaxTxFromGateways_loop_ge gwList (inject_Z (min_transmissionPower this)))
      as (b & -> & Hb).
    exact Hb.
  - split; [| reflexivity]. intros H.
    rewrite (GetMaxTxFromGateways_loop_below _ _ H).
    split; [reflexivity |]. intros m Hm. exact (max_rxPower_below _ _ m H Hm).
Qed.

(** C10.  On a history of at least [historyRange] packets [GetMaxSNR]
    returns a value that is its start value
    [TxPowerToSNR(min_transmissionPower)] or lies above it; when every
    per-packet SNR of the window is below that floor it returns the floor.
    In the component as shipped the floor is
    2 + 174 - 10 log10(125000) - 6, between 119 and 119.1 dB for a [log10]
    correct to two decimals. *)
Theorem C10_max_over_history_floor
    (log10 : double -> double) (this : AdrComponent)
    (packetList : ReceivedPacketList) (historyRange : Z) :
  historyRange <= Z.of_nat (length packetList) ->
  let floor_SNR := TxPowerToSNR log10 this (of_int (min_transmissionPower this)) in
  (exists r,
     GetMaxSNR log10 this packetList historyRange = Some r /\
     (r = floor_SNR \/ (floor_SNR <? r)%D = true) /\
     (Forall (fun p => (PacketSNR log10 this p <? floor_SNR)%D = true)
        (window packetList historyRange) ->
      r = floor_SNR)) /\
  TxPowerToSNR log10 default (of_int (min_transmissionPower default))
  = (of_int 2 + of_int 174 - of_int 10 * log10 (of_int 125000) - of_int 6)%D /\
  (forall L, log10 (of_int 125000) = Fin L -> (509 # 100 <= L <= 510 # 100)%Q ->
             (of_int 119 <= TxPowerToSNR log10 default (of_int 2))%D /\
             (TxPowerToSNR log10 default (of_int 2) <= Fin (1191 # 10))%D).
Proof.
  intros Hlen. cbv zeta. split; [| split; [reflexivity |]].
  - destruct (GetMaxSNR_loop_defined log10 this (Z.to_nat historyRange) (rev packetList)
                (TxPowerToSNR log10 this (of_int (min_transmissionPower this))))
      as [r Hr]; [rewrite length_rev; lia |].
    exists r. split; [exact Hr |]. split.
    + exact (GetMaxSNR_loop_floor log10 this _ _ _ _ Hr).
    + intros Hall. apply (GetMaxSNR_loop_below log10 this _ _ _ _) in Hr; [exact Hr |].
      unfold window in Hall. eapply Forall_impl; [| exact Hall].
      intros p Hp. now apply ltb_asym.
  - intros L HL [H1 H2]. unfold TxPowerToSNR. cbn [B NF default]. rewrite HL.
    cbn. unfold inject_Z. split; lra.
Qed.

(** ** When the decision is defined *)

Section Defined.

Variable log10 : double -> double.
Variable this : AdrComponent.
Variable L : Q.
Hypothesis log10_B : log10 (of_int (B this)) = Fin L.

Lemma TxPowerToSNR_Fin (x : Q) :
  TxPowerToSNR log10 this (Fin x)
  = Fin (x + inject_Z 174 - inject_Z 10 * L - inject_Z (NF this)).
Proof. unfold TxPowerToSNR. rewrite log10_B. reflexivity. Qed.

Lemma GetAverageTxFromGateways_loop_Fin (it : GatewayList) (a : Q) :
  Forall (fun e => is_finite (rxPower (snd e))) it ->
  exists s, GetAverageTxFromGateways_loop it (Fin a) = Fin s.
Proof.
  intros H. revert a. induction H as [| [addr info] it Hx _ IH]; intros a.
  - now exists a.
  - cbn [GetAverageTxFromGateways_loop]. cbn [snd] in Hx.
    destruct (rxPower info) as [p |]; [| contradiction]. apply IH.
Qed.

Lemma PacketSNR_Fin (p : Packet * ReceivedPacketInfo) :
  heard p -> exists x, PacketSNR log10 this p = Fin x.
Proof.
  intros [Hne Hfin]. unfold PacketSNR, GetReceivedPower.
  destruct (tpAveraging this).
  - unfold GetAverageTxFromGateways.
    destruct (GetAverageTxFromGateways_loop_Fin (gwList (snd p)) (inject_Z 0) Hfin)
      as [s Hs].
    change (of_int 0) with (Fin (inject_Z 0)). rewrite Hs.
    destruct (gwList (snd p)) as [| e l]; [congruence |].
    unfold div, of_int.
    destruct (Qeq_bool (inject_Z (Z.of_nat (length (e :: l)))) 0) eqn:E.
    + apply Qeq_bool_iff in E. change 0%Q with (inject_Z 0) in E.
      apply (proj1 (inject_Z_injective _ _)) in E. cbn [length] in E. lia.
    + rewrite TxPowerToSNR_Fin. eauto.
  - unfold GetMaxTxFromGateways, of_int.
    destruct (GetMaxTxFromGateways_loop_ge (gwList (snd p))
                (inject_Z (min_transmissionPower this))) as (b & -> & _).
    rewrite !TxPowerToSNR_Fin. eauto.
Qed.

Lemma GetMaxSNR_loop_Fin (n : nat) (it : ReceivedPacketList) (a : Q) (r : double) :
  GetMaxSNR_loop log10 this n it (Fin a) = Some r -> is_finite r.
Proof.
  revert it a. induction n as [| n IH]; intros it a H.
  - simpl in H. injection H as <-. exact I.
  - destruct it as [| [pkt info] it]; [discriminate |].
    cbn [GetMaxSNR_loop] in H. cbv zeta in H.
    destruct (TxPowerToSNR log10 this (GetReceivedPower log10 this (gwList info)))
      as [x |].
    + destruct (Fin x >? Fin a)%D; exact (IH _ _ H).
    + exact (IH _ _ H).
Qed.

(** With a history of at least [historyRange > 0] packets, all heard, the
    history aggregate is a number under both policies. *)
Lemma aggregate_Fin (packetList : ReceivedPacketList) :
  0 < historyRange this <= Z.of_nat (length packetList) ->
  Forall heard packetList ->
  exists m,
    (if historyAveraging this
     then GetAverageSNR log10 this packetList (historyRange this)
     else GetMaxSNR log10 this packetList (historyRange this))
    = Some (Fin m).
Proof.
  intros Hr Hall. destruct (historyAveraging this).
  - destruct (GetAverageSNR_last_sample log10 this packetList (historyRange this) Hr)
      as (p & Hp & ->).
    assert (Hin : In p packetList) by (apply in_rev; eapply nth_error_In; exact Hp).
    rewrite Forall_forall in Hall.
    destruct (PacketSNR_Fin p (Hall p Hin)) as [x ->].
    unfold div, of_int.
    destruct (Qeq_bool (inject_Z (historyRange this)) 0) eqn:E; [| eauto].
    apply Qeq_bool_iff in E. change 0%Q with (inject_Z 0) in E.
    apply (proj1 (inject_Z_injective _ _)) in E. lia.
  - unfold GetMaxSNR. cbv zeta. unfold of_int at 1. rewrite TxPowerToSNR_Fin.
    match goal with
    | |- exists m, GetMaxSNR_loop _ _ ?n ?l ?a = _ =>
        destruct (GetMaxSNR_loop_defined log10 this n l a) as [r Hr'];
          [rewrite length_rev; lia |]
    end.
    rewrite Hr'. apply GetMaxSNR_loop_Fin in Hr'.
    destruct r as [m |]; [eauto | contradiction].
Qed.

End Defined.

(** A device that keeps the invariants of its record (spreading factor in
    7..12, power on the 3 dB grid of 2..14 dBm, at least [historyRange]
    packets, all heard) and whose uplink asks for ADR gets a reply staged,
    whenever the number of steps fits an [int]. *)
Lemma BeforeSendingReply_defined (log10 : double -> double) (this : AdrComponent)
    (status : EndDeviceStatus) (L : Q) (k : Z) :
  log10 (of_int (B this)) = Fin L ->
  min_spreadingFactor this = 7 ->
  min_transmissionPower this = 2 ->
  max_transmissionPower this = 14 ->
  treshold this = treshold default ->
  GetAdr (GetLastPacketReceivedFromDevice status) = true ->
  0 < historyRange this <= Z.of_nat (length (GetReceivedPacketList status)) ->
  Forall heard (GetReceivedPacketList status) ->
  7 <= GetFirstReceiveWindowSpreadingFactor status <= 12 ->
  0 <= k <= 4 ->
  (GetTransmissionPower status == of_int (2 + 3 * k))%D ->
  (forall m req : Q,
     (if historyAveraging this
      then GetAverageSNR log10 this (GetReceivedPacketList status) (historyRange this)
      else GetMaxSNR log10 this (GetReceivedPacketList status) (historyRange this))
     = Some (Fin m) ->
     index (treshold this) (SfToDr (GetFirstReceiveWindowSpreadingFactor status))
     = Some (Fin req) ->
     INT_MIN <= Qfloor ((m - req - inject_Z (offset this)) / inject_Z 3) <= INT_MAX) ->
  exists newDataRate newTxPower,
    AdrImplementation log10 this status = Some (newDataRate, newTxPower) /\
    BeforeSendingReply log10 this status
    = Some (stage status newDataRate newTxPower).
Proof.
  intros HL Hsf Hlo Hhi Htab Hadr Hlen Hheard Rsf Rk Htp Hfit.
  destruct (aggregate_Fin log10 this L HL _ Hlen Hheard) as [m Hm].
  assert (Hreq : exists req,
             index (treshold this) (SfToDr (GetFirstReceiveWindowSpreadingFactor status))
             = Some (Fin req)).
  { rewrite Htab. unfold SfToDr, index.
    assert (Hc : GetFirstReceiveWindowSpreadingFactor status - 7 = 0
                 \/ GetFirstReceiveWindowSpreadingFactor status - 7 = 1
                 \/ GetFirstReceiveWindowSpreadingFactor status - 7 = 2
                 \/ GetFirstReceiveWindowSpreadingFactor status - 7 = 3
                 \/ GetFirstReceiveWindowSpreadingFactor status - 7 = 4
                 \/ GetFirstReceiveWindowSpreadingFactor status - 7 = 5) by lia.
    destruct Hc as [-> | [-> | [-> | [-> | [-> | ->]]]]]; vm_compute; eauto. }
  destruct Hreq as [req Hreq].
  pose proof (AdrSteps_defined log10 this status m req Hm Hreq (Hfit m req Hm Hreq))
    as Hsteps.
  unfold BeforeSendingReply. rewrite Hadr.
  destruct (Z.ltb_spec (Z.of_nat (length (GetReceivedPacketList status)))
              (historyRange this)) as [Hl | _]; [lia |].
  unfold AdrImplementation, AdrDecision. rewrite Hsteps.
  destruct (GetTransmissionPower status) as [q |]; [| contradiction].
  destruct (StepPolicy_grid this
              (Qfloor ((m - req - inject_Z (offset this)) / inject_Z 3))
              (GetFirstReceiveWindowSpreadingFactor status)
              k q Hsf Hlo Hhi Rsf Rk Htp)
    as (s' & sf' & k' & q' & E & Hq' & _ & Rk' & _).
  rewrite E.
  assert (Hq'' : (Fin q' == of_int (2 + 3 * k'))%D) by exact Hq'.
  rewrite (to_int_eq _ _ Hq''), to_int_of_int by (unfold INT_MIN, INT_MAX; lia).
  eauto.
Qed.

(** The device of the spec's example meets these conditions. *)
Example BeforeSendingReply_defined_example :
  exists newDataRate newTxPower,
    AdrImplementation log10_approx default (device 7 14 (steady (-80)))
    = Some (newDataRate, newTxPower) /\
    BeforeSendingReply log10_approx default (device 7 14 (steady (-80)))
    = Some (stage (device 7 14 (steady (-80))) newDataRate newTxPower).
Proof.
  apply (BeforeSendingReply_defined log10_approx default (device 7 14 (steady (-80)))
           (509691 # 100000) 4); try reflexivity; try (cbn; lia).
  - unfold steady. cbn [device GetReceivedPacketList repeat].
    repeat (constructor; [split; [discriminate | repeat constructor] |]). constructor.
  - intros m req Hm Hreq. vm_compute in Hm, Hreq.
    injection Hm as <-. injection Hreq as <-. vm_compute. split; discriminate.
Qed.

(** The two other hooks leave the device record as it is. *)
Lemma other_hooks_keep_status (packet : Packet) (status : EndDeviceStatus) :
  OnReceivedPacket packet status = status /\ OnFailedReply status = status.
Proof. split; reflexivity. Qed.

(** ** The theorems at work on concrete devices *)

(** C6 at work: a device whose last uplink asked for ADR gets the command
    of the decision once 20 packets are in its history, and is left as it
    was with 19. *)
Lemma C6_witness :
  BeforeSendingReply log10_approx default (device 7 14 (steady (-80)))
  = Some (stage (device 7 14 (steady (-80))) 0 5) /\
  BeforeSendingReply log10_approx default (device 7 14 (repeat (uplink (-80)) 19))
  = Some (device 7 14 (repeat (uplink (-80)) 19)).
Proof.
  split.
  - rewrite (proj1 (proj2 (C6_reply_staged_iff_requested_and_enough_history
                             log10_approx default (device 7 14 (steady (-80)))))).
    + vm_compute. reflexivity.
    + split; [reflexivity | cbn; lia].
  - apply (proj1 (C6_reply_staged_iff_requested_and_enough_history
                    log10_approx default (device 7 14 (repeat (uplink (-80)) 19)))).
    cbn. lia.
Defined.

(** C7 at work: under the max history policy a device at SF 10 and 8 dBm
    gets 40 steps; the decision saturates at SF 7 (data rate index 0) and
    2 dBm. *)
Lemma C7_witness :
  AdrSteps log10_approx max_over_history (device 10 8 (steady (-80))) = Some 40 /\
  AdrImplementation log10_approx max_over_history (device 10 8 (steady (-80)))
  = Some (0, 2).
Proof.
  split; [vm_compute; reflexivity |].
  pose proof (C7_decision_within_bounds_and_saturating
                log10_approx max_over_history (device 10 8 (steady (-80))) 2 40
                eq_refl eq_refl eq_refl
                ltac:(cbn; lia) ltac:(lia)
                ltac:(vm_compute; reflexivity) ltac:(vm_compute; reflexivity))
    as (sf' & k' & tp' & _ & E & _ & _ & _ & _ & _ & _ & Hpos & _).
  destruct (Hpos ltac:(lia)) as [Hsf Hk]. rewrite Hk, Hsf in E. exact E.
Defined.

(** C8 at work: twenty uplinks heard at -70 dBm instead of -80 dBm raise
    every per-packet SNR by 10 dB; the device at SF 7 and 14 dBm is sent to
    2 dBm instead of 5 dBm. *)
Lemma C8_witness :
  AdrDecision log10_approx default (device 7 14 (steady (-80))) = Some (7, Fin 5) /\
  AdrDecision log10_approx default (device 7 14 (steady (-70))) = Some (7, Fin 2) /\
  7 <= 7 /\ (Fin 2 <= Fin 5)%D.
Proof.
  split; [vm_compute; reflexivity |]. split; [vm_compute; reflexivity |].
  assert (HF : Forall2
                 (fun p p' => raised 10 (PacketSNR log10_approx default p)
                                (PacketSNR log10_approx default p'))
                 (steady (-80)) (steady (-70))).
  { unfold steady. cbn [repeat].
    repeat (constructor; [vm_compute; reflexivity |]). constructor. }
  pose proof (C8_raised_SNR_never_raises_decision
                log10_approx default
                (device 7 14 (steady (-80))) (device 7 14 (steady (-70)))
                10 7 7 (Fin 5) (Fin 2)
                eq_refl eq_refl eq_refl I HF
                ltac:(vm_compute; reflexivity) ltac:(vm_compute; reflexivity))
    as (A & C & _).
  split; assumption.
Defined.

(** C10 at work: twenty uplinks heard at -80 dBm have per-packet SNRs of
    37.0309 dB, below the floor of 119.0309 dB, and the floor is returned. *)
Lemma C10_witness :
  GetMaxSNR log10_approx max_over_history (steady (-80)) 20
  = Some (TxPowerToSNR log10_approx max_over_history (of_int 2)) /\
  (TxPowerToSNR log10_approx max_over_history (of_int 2) == Fin (1190309 # 10000))%D.
Proof.
  split; [| vm_compute; reflexivity].
  pose proof (C10_max_over_history_floor log10_approx max_over_history (steady (-80)) 20
                ltac:(cbn; lia))
    as [(r & E & _ & Hall) _].
  rewrite E. f_equal. apply Hall.
  cbn [window steady repeat Z.to_nat Pos.to_nat Pos.iter_op Nat.add rev app firstn].
  repeat (constructor; [vm_compute; reflexivity |]). constructor.
Defined.

(** ** The transmission power index *)

(** X1.  [GetTxPowerIndex] returns an index in 0..7; for [i] in 0..6 the
    index is at most [i] exactly when the power is at least [16 - 2 i] dBm;
    a higher power never gets a higher index. *)
Theorem X1_GetTxPowerIndex_thresholds (txPower : Z) :
  0 <= GetTxPowerIndex txPower <= 7 /\
  (forall i, 0 <= i <= 6 -> (GetTxPowerIndex txPower <= i <-> 16 - 2 * i <= txPower)) /\
  (forall txPower', txPower <= txPower' ->
                    GetTxPowerIndex txPower' <= GetTxPowerIndex txPower).
Proof.
  unfold GetTxPowerIndex. split; [| split].
  - repeat match goal with |- context [?a >=? ?b] => destruct (Z.geb_spec a b) end; lia.
  - intros i Hi.
    repeat match goal with |- context [?a >=? ?b] => destruct (Z.geb_spec a b) end; lia.
  - intros p' Hp.
    repeat match goal with |- context [?a >=? ?b] => destruct (Z.geb_spec a b) end; lia.
Qed.

(** X2.  On the power levels [16 - 2 i] dBm, [i] in 0..7, the index is
    [i]; for a power from 2 dBm up the level of the index returned is the
    highest level that does not exceed the power. *)
Theorem X2_GetTxPowerIndex_level (txPower i : Z) :
  0 <= i <= 7 ->
  GetTxPowerIndex (16 - 2 * i) = i /\
  (2 <= txPower ->
   16 - 2 * GetTxPowerIndex txPower <= txPower /\
   (16 - 2 * i <= txPower -> 16 - 2 * i <= 16 - 2 * GetTxPowerIndex txPower)).
Proof.
  intros Hi. unfold GetTxPowerIndex. split.
  - repeat match goal with |- context [?a >=? ?b] => destruct (Z.geb_spec a b) end; lia.
  - intros Hp.
    repeat match goal with |- context [?a >=? ?b] => destruct (Z.geb_spec a b) end; lia.
Qed.

(** X2 at work: 14 dBm is level 1, and 13 dBm is served at level 2
    (12 dBm). *)
Lemma X2_witness :
  GetTxPowerIndex (16 - 2 * 1) = 1 /\
  16 - 2 * GetTxPowerIndex 13 <= 13 /\ GetTxPowerIndex 13 = 2.
Proof.
  pose proof (X2_GetTxPowerIndex_level 13 1 ltac:(lia)) as [H1 H2].
  split; [exact H1 |]. split; [apply H2; lia | reflexivity].
Defined.

(** ** The history aggregates at their bounds *)

Section AggregateBounds.

Variable log10 : double -> double.
Variable this : AdrComponent.

Lemma GetMaxSNR_loop_short (n : nat) (it : ReceivedPacketList) (max : double) :
  (length it < n)%nat -> GetMaxSNR_loop log10 this n it max = None.
Proof.
  revert it max. induction n as [| n IH]; intros it max H; [lia |].
  destruct it as [| [pkt info] it]; [reflexivity |].
  cbn [GetMaxSNR_loop]. apply IH. simpl in H. lia.
Qed.

Lemma GetMaxSNR_loop_app (n : nat) (it older : ReceivedPacketList) (max : double) :
  (n <= length it)%nat ->
  GetMaxSNR_loop log10 this n (it ++ older) max = GetMaxSNR_loop log10 this n it max.
Proof.
  revert it max. induction n as [| n IH]; intros it max H; [reflexivity |].
  destruct it as [| [pkt info] it]; [simpl in H; lia |].
  cbn [GetMaxSNR_loop app]. apply IH. simpl in H. lia.
Qed.

Lemma GetAverageSNR_loop_app (n : nat) (it older : ReceivedPacketList)
    (sum : double) (m_SNR : option double) :
  (n <= length it)%nat ->
  GetAverageSNR_loop log10 this n (it ++ older) sum m_SNR
  = GetAverageSNR_loop log10 this n it sum m_SNR.
Proof.
  revert it sum m_SNR. induction n as [| n IH]; intros it sum m_SNR H; [reflexivity |].
  destruct it as [| [pkt info] it]; [simpl in H; lia |].
  cbn [GetAverageSNR_loop app]. apply IH. simpl in H. lia.
Qed.

Lemma gtb_irrefl (x : double) : (x >? x)%D = false.
Proof. destruct x as [a |]; [apply gtb_Fin_false; lra | reflexivity]. Qed.

(** The running maximum ends above every sample it saw, on one of them or
    on its start value. *)
Lemma GetMaxSNR_loop_is_max (n : nat) (it : ReceivedPacketList) (max r : double) :
  GetMaxSNR_loop log10 this n it max = Some r ->
  Forall (fun p => (PacketSNR log10 this p >? r)%D = false) (firstn n it) /\
  (r = max \/ Exists (fun p => r = PacketSNR log10 this p) (firstn n it)).
Proof.
  revert it max. induction n as [| n IH]; intros it max H.
  - simpl in H. injection H as <-. split; [constructor | now left].
  - destruct it as [| [pkt info] it]; [discriminate |].
    pose proof (GetMaxSNR_loop_floor log10 this (S n) ((pkt, info) :: it) max r H) as Hfl.
    cbn [GetMaxSNR_loop] in H. cbv zeta in H. cbn [firstn].
    change (TxPowerToSNR log10 this (GetReceivedPower log10 this (gwList info)))
      with (PacketSNR log10 this (pkt, info)) in H.
    pose proof (GetMaxSNR_loop_floor log10 this _ _ _ _ H) as Hfl1.
    destruct (IH _ _ H) as [Hub Hatt]. split.
    + constructor; [| exact Hub].
      destruct (PacketSNR log10 this (pkt, info) >? max)%D eqn:E.
      * destruct Hfl1 as [-> | Hlt]; [apply gtb_irrefl | now apply ltb_asym].
      * destruct Hfl1 as [-> | Hlt]; [exact E |].
        unfold gtb in *.
        destruct (PacketSNR log10 this (pkt, info)) as [m |]; [| now destruct r].
        destruct max as [a |], r as [b |]; try discriminate.
        apply ltb_Fin_false in E. apply ltb_Fin in Hlt. apply ltb_Fin_false. lra.
    + destruct (PacketSNR log10 this (pkt, info) >? max)%D eqn:E.
      * destruct Hatt as [-> | Hex]; right; [now left | now right].
      * destruct Hatt as [-> | Hex]; [now left | right; now right].
Qed.

End AggregateBounds.

(** X3.  [GetMaxSNR] is defined exactly on histories of at least
    [historyRange] packets, and with [historyRange <= 0] it returns its start
    value without reading a packet; [GetAverageSNR] is defined exactly when,
    moreover, [historyRange] is positive (with no iteration it returns an
    uninitialised local). *)
Theorem X3_aggregates_defined_iff
    (log10 : double -> double) (this : AdrComponent)
    (packetList : ReceivedPacketList) (historyRange : Z) :
  ((exists r, GetMaxSNR log10 this packetList historyRange = Some r)
   <-> historyRange <= Z.of_nat (length packetList)) /\
  (historyRange <= 0 ->
   GetMaxSNR log10 this packetList historyRange
   = Some (TxPowerToSNR log10 this (of_int (min_transmissionPower this))) /\
   GetAverageSNR log10 this packetList historyRange = None) /\
  ((exists r, GetAverageSNR log10 this packetList historyRange = Some r)
   <-> 0 < historyRange <= Z.of_nat (length packetList)).
Proof.
  split; [| split].
  - split.
    + intros [r H]. unfold GetMaxSNR in H. cbv zeta in H.
      destruct (Z.le_gt_cases historyRange (Z.of_nat (length packetList))) as [L | L];
        [exact L |].
      rewrite GetMaxSNR_loop_short in H by (rewrite length_rev; lia). discriminate.
    + intros H. apply GetMaxSNR_loop_defined. rewrite length_rev. lia.
  - intros H. unfold GetMaxSNR, GetAverageSNR.
    replace (Z.to_nat historyRange) with O by lia. split; reflexivity.
  - split.
    + intros [r H]. unfold GetAverageSNR in H.
      destruct (Nat.le_gt_cases (Z.to_nat historyRange) (length (rev packetList)))
        as [L | L].
      * rewrite GetAverageSNR_loop_spec in H by exact L. rewrite length_rev in L.
        destruct (Z.to_nat historyRange) eqn:E; [discriminate | lia].
      * rewrite GetAverageSNR_loop_short in H by exact L. discriminate.
    + intros H.
      destruct (GetAverageSNR_last_sample log10 this packetList historyRange H)
        as (p & _ & E).
      eauto.
Qed.

(** X4.  Both aggregates read the last [historyRange] packets only: packets
    older than those leave the result as it is. *)
Theorem X4_aggregates_ignore_older_packets
    (log10 : double -> double) (this : AdrComponent)
    (older recent : ReceivedPacketList) (historyRange : Z) :
  historyRange <= Z.of_nat (length recent) ->
  GetMaxSNR log10 this (older ++ recent) historyRange
  = GetMaxSNR log10 this recent historyRange /\
  GetAverageSNR log10 this (older ++ recent) historyRange
  = GetAverageSNR log10 this recent historyRange.
Proof.
  intros H. unfold GetMaxSNR, GetAverageSNR. rewrite rev_app_distr.
  rewrite GetMaxSNR_loop_app, GetAverageSNR_loop_app by (rewrite length_rev; lia).
  split; reflexivity.
Qed.

(** X4 at work: three older uplinks heard at -40 dBm in front of twenty at
    -80 dBm change neither aggregate. *)
Lemma X4_witness :
  GetMaxSNR log10_approx default (repeat (uplink (-40)) 3 ++ steady (-80)) 20
  = GetMaxSNR log10_approx default (steady (-80)) 20 /\
  GetAverageSNR log10_approx default (repeat (uplink (-40)) 3 ++ steady (-80)) 20
  = GetAverageSNR log10_approx default (steady (-80)) 20.
Proof.
  apply (X4_aggregates_ignore_older_packets log10_approx default
           (repeat (uplink (-40)) 3) (steady (-80)) 20).
  cbn. lia.
Defined.

(** X5.  [GetAverageSNR] returns the per-packet SNR of the oldest packet of
    the window divided by [historyRange]: the [historyRange - 1] packets
    received after it, like the packets before it, have no part in the
    result. *)
Theorem X5_average_reads_oldest_of_window
    (log10 : double -> double) (this : AdrComponent)
    (older recent : ReceivedPacketList) (p : Packet * ReceivedPacketInfo)
    (historyRange : Z) :
  Z.of_nat (length recent) = historyRange - 1 ->
  GetAverageSNR log10 this (older ++ p :: recent) historyRange
  = Some (PacketSNR log10 this p / of_int historyRange)%D.
Proof.
  intros H.
  destruct (GetAverageSNR_last_sample log10 this (older ++ p :: recent) historyRange)
    as (p' & Hp' & ->).
  { rewrite length_app. cbn [length]. lia. }
  replace (Z.to_nat historyRange - 1)%nat with (length (rev recent)) in Hp'
    by (rewrite length_rev; lia).
  rewrite rev_app_distr in Hp'. cbn [rev] in Hp'. rewrite <- !app_assoc in Hp'.
  rewrite nth_error_app2 in Hp' by lia. rewrite Nat.sub_diag in Hp'.
  cbn in Hp'. injection Hp' as <-. reflexivity.
Qed.

(** X5 at work: nineteen recent uplinks at -40 dBm after one at -80 dBm
    give the same value as twenty uplinks at -80 dBm. *)
Lemma X5_witness :
  GetAverageSNR log10_approx default (uplink (-80) :: repeat (uplink (-40)) 19) 20
  = Some (PacketSNR log10_approx default (uplink (-80)) / of_int 20)%D /\
  GetAverageSNR log10_approx default (steady (-80)) 20
  = Some (PacketSNR log10_approx default (uplink (-80)) / of_int 20)%D.
Proof.
  split.
  - apply (X5_average_reads_oldest_of_window log10_approx default
             [] (repeat (uplink (-40)) 19) (uplink (-80)) 20).
    cbn. lia.
  - apply (X5_average_reads_oldest_of_window log10_approx default
             [] (repeat (uplink (-80)) 19) (uplink (-80)) 20).
    cbn. lia.
Defined.

(** X6.  The value [GetMaxSNR] returns is exceeded by no per-packet SNR of
    the window, and it is the start value or the per-packet SNR of a packet
    of the window. *)
Theorem X6_GetMaxSNR_is_maximum
    (log10 : double -> double) (this : AdrComponent)
    (packetList : ReceivedPacketList) (historyRange : Z) (r : double) :
  GetMaxSNR log10 this packetList historyRange = Some r ->
  Forall (fun p => (PacketSNR log10 this p >? r)%D = false)
    (window packetList historyRange) /\
  (r = TxPowerToSNR log10 this (of_int (min_transmissionPower this)) \/
   Exists (fun p => r = PacketSNR log10 this p) (window packetList historyRange)).
Proof.
  unfold GetMaxSNR, window. cbv zeta. apply GetMaxSNR_loop_is_max.
Qed.

(** X6 at work: of three uplinks heard at 5, 10 and 3 dBm the one at 10 dBm
    gives the maximum, above the start value. *)
Lemma X6_witness :
  GetMaxSNR log10_approx max_over_history [uplink 5; uplink 10; uplink 3] 3
  = Some (PacketSNR log10_approx max_over_history (uplink 10)) /\
  Forall (fun p => (PacketSNR log10_approx max_over_history p
                    >? PacketSNR log10_approx max_over_history (uplink 10))%D = false)
    (window [uplink 5; uplink 10; uplink 3] 3).
Proof.
  split; [vm_compute; reflexivity |].
  apply (X6_GetMaxSNR_is_maximum log10_approx max_over_history
           [uplink 5; uplink 10; uplink 3] 3
           (PacketSNR log10_approx max_over_history (uplink 10))).
  vm_compute. reflexivity.
Defined.

(** ** The aggregates over gateways *)

Lemma GetMaxTxFromGateways_loop_is_max (it : GatewayList) (max : double) :
  let r := GetMaxTxFromGateways_loop it max in
  (r = max \/ (max <? r)%D = true) /\
  Forall (fun e => (rxPower (snd e) >? r)%D = false) it /\
  (r = max \/ Exists (fun e => r = rxPower (snd e)) it).
Proof.
  cbv zeta. revert max. induction it as [| [addr info] it IH]; intros max.
  - cbn. split; [now left |]. split; [constructor | now left].
  - cbn [GetMaxTxFromGateways_loop].
    destruct (IH (if (rxPower info >? max)%D then rxPower info else max))
      as (Hfl & Hub & Hatt).
    set (r := GetMaxTxFromGateways_loop it
                (if (rxPower info >? max)%D then rxPower info else max)) in *.
    destruct (rxPower info >? max)%D eqn:E.
    + assert (Hmr : r = max \/ (max <? r)%D = true).
      { right. destruct Hfl as [-> | Hlt]; [exact E |].
        unfold gtb in E.
        destruct max as [a |], (rxPower info) as [b |], r as [c |]; try discriminate.
        apply ltb_Fin in E. apply ltb_Fin in Hlt. apply ltb_Fin. lra. }
      split; [exact Hmr |]. split.
      * constructor; [| exact Hub]. cbn [snd].
        destruct Hfl as [-> | Hlt]; [apply gtb_irrefl | now apply ltb_asym].
      * right. destruct Hatt as [-> | Hex]; [now left | now right].
    + split; [exact Hfl |]. split.
      * constructor; [| exact Hub]. cbn [snd].
        destruct Hfl as [-> | Hlt]; [exact E |].
        unfold gtb in *.
        destruct (rxPower info) as [m |]; [| now destruct r].
        destruct max as [a |], r as [b |]; try discriminate.
        apply ltb_Fin_false in E. apply ltb_Fin in Hlt. apply ltb_Fin_false. lra.
      * destruct Hatt as [-> | Hex]; [now left | right; now right].
Qed.

(** X7.  The value [GetMaxTxFromGateways] returns is exceeded by no
    reported power, and it is the minimum transmission power or one of the
    reported powers. *)
Theorem X7_GetMaxTxFromGateways_is_maximum (this : AdrComponent) (gwList : GatewayList) :
  Forall (fun e => (rxPower (snd e) >? GetMaxTxFromGateways this gwList)%D = false)
    gwList /\
  (GetMaxTxFromGateways this gwList = of_int (min_transmissionPower this) \/
   Exists (fun e => GetMaxTxFromGateways this gwList = rxPower (snd e)) gwList).
Proof.
  unfold GetMaxTxFromGateways.
  destruct (GetMaxTxFromGateways_loop_is_max gwList (of_int (min_transmissionPower this)))
    as (_ & Hub & Hatt).
  split; assumption.
Qed.

Lemma GetAverageTxFromGateways_loop_NaN (it : GatewayList) :
  GetAverageTxFromGateways_loop it NaN = NaN.
Proof.
  induction it as [| [addr info] it IH]; [reflexivity | exact IH].
Qed.

Lemma GetAverageTxFromGateways_loop_poisoned (it : GatewayList) (sum : double) :
  Exists (fun e => rxPower (snd e) = NaN) it ->
  GetAverageTxFromGateways_loop it sum = NaN.
Proof.
  intros H. revert sum. induction H as [[addr info] it Hx | [addr info] it _ IH];
    intros sum; cbn [GetAverageTxFromGateways_loop].
  - cbn [snd] in Hx. rewrite Hx.
    replace (sum + NaN)%D with NaN by (now destruct sum).
    apply GetAverageTxFromGateways_loop_NaN.
  - apply IH.
Qed.

(** X9.  One NaN among the reports makes [GetAverageTxFromGateways] return
    NaN, whereas [GetMaxTxFromGateways] skips NaN reports: it returns what it
    returns without them. *)
Theorem X9_NaN_report_poisons_average_not_max
    (this : AdrComponent) (gwList : GatewayList) :
  (Exists (fun e => rxPower (snd e) = NaN) gwList ->
   GetAverageTxFromGateways gwList = NaN) /\
  GetMaxTxFromGateways this gwList
  = GetMaxTxFromGateways this
      (filter (fun e => match rxPower (snd e) with Fin _ => true | NaN => false end)
         gwList).
Proof.
  split.
  - intros H. unfold GetAverageTxFromGateways. cbv zeta.
    now rewrite (GetAverageTxFromGateways_loop_poisoned gwList (of_int 0) H).
  - unfold GetMaxTxFromGateways. generalize (of_int (min_transmissionPower this)).
    induction gwList as [| [addr info] it IH]; intros max; [reflexivity |].
    cbn [GetMaxTxFromGateways_loop filter snd].
    destruct (rxPower info) as [p |] eqn:E.
    + cbn [GetMaxTxFromGateways_loop]. rewrite E. apply IH.
    + replace (NaN >? max)%D with false by (now destruct max). apply IH.
Qed.

(** ** Raising the reported powers *)

Lemma raised_add_r (delta : Q) (x x' c : double) :
  raised delta x x' -> raised delta (x + c)%D (x' + c)%D.
Proof.
  unfold raised. destruct x, x', c; simpl; try tauto. intros H. lra.
Qed.

Lemma raised_sub_r (delta : Q) (x x' c : double) :
  raised delta x x' -> raised delta (x - c)%D (x' - c)%D.
Proof.
  unfold raised. destruct x, x', c; simpl; try tauto. intros H. lra.
Qed.

Lemma TxPowerToSNR_raised (log10 : double -> double) (this : AdrComponent)
    (delta : Q) (x x' : double) :
  raised delta x x' ->
  raised delta (TxPowerToSNR log10 this x) (TxPowerToSNR log10 this x').
Proof.
  intros H. unfold TxPowerToSNR. now apply raised_sub_r, raised_sub_r, raised_add_r.
Qed.

Lemma GetAverageTxFromGateways_loop_raise (delta : Q) (it : GatewayList) (a a' : Q) :
  match GetAverageTxFromGateways_loop it (Fin a) with
  | Fin s =>
      exists s',
        GetAverageTxFromGateways_loop (raise_reports delta it) (Fin a') = Fin s' /\
        (s' == s + (a' - a) + inject_Z (Z.of_nat (length it)) * delta)%Q
  | NaN => GetAverageTxFromGateways_loop (raise_reports delta it) (Fin a') = NaN
  end.
Proof.
  revert a a'. induction it as [| [addr info] it IH]; intros a a'.
  - cbn [GetAverageTxFromGateways_loop raise_reports map length Z.of_nat].
    exists a'. split; [reflexivity |]. change (inject_Z 0) with 0%Q. lra.
  - cbn [GetAverageTxFromGateways_loop raise_reports map fst snd rxPower].
    fold (raise_reports delta it).
    destruct (rxPower info) as [p |].
    + change (Fin a + Fin p)%D with (Fin (a + p)).
      change (Fin a' + (Fin p + Fin delta))%D with (Fin (a' + (p + delta))).
      specialize (IH (a + p)%Q (a' + (p + delta))%Q).
      destruct (GetAverageTxFromGateways_loop it (Fin (a + p))) as [s |]; [| exact IH].
      destruct IH as (s' & E & Hs). exists s'. split; [exact E |].
      cbn [length]. rewrite Nat2Z.inj_succ, <- Z.add_1_r, inject_Z_plus.
      change (inject_Z 1) with 1%Q. lra.
    + change (Fin a + NaN)%D with NaN. change (Fin a' + (NaN + Fin delta))%D with NaN.
      rewrite !GetAverageTxFromGateways_loop_NaN. reflexivity.
Qed.

Lemma GetAverageTxFromGateways_raise (delta : Q) (gwList : GatewayList) :
  raised delta (GetAverageTxFromGateways gwList)
    (GetAverageTxFromGateways (raise_reports delta gwList)).
Proof.
  unfold GetAverageTxFromGateways. cbv zeta.
  assert (Hlen : length (raise_reports delta gwList) = length gwList)
    by apply length_map.
  rewrite Hlen.
  pose proof (GetAverageTxFromGateways_loop_raise delta gwList (inject_Z 0) (inject_Z 0))
    as H.
  change (of_int 0) with (Fin (inject_Z 0)).
  destruct (GetAverageTxFromGateways_loop gwList (Fin (inject_Z 0))) as [s |].
  - destruct H as (s' & -> & Hs). unfold raised, div, of_int.
    destruct (Qeq_bool (inject_Z (Z.of_nat (length gwList))) 0) eqn:Ez; [exact I |].
    cbn [add lift2 Double.eq]. rewrite Hs.
    assert (Hn : ~ (inject_Z (Z.of_nat (length gwList)) == 0)%Q).
    { intros C. apply Qeq_bool_iff in C. congruence. }
    field. exact Hn.
  - rewrite H. exact I.
Qed.

Lemma PacketSNR_raise_packet (log10 : double -> double) (this : AdrComponent)
    (delta : Q) (p : Packet * ReceivedPacketInfo) :
  tpAveraging this = true ->
  raised delta (PacketSNR log10 this p) (PacketSNR log10 this (raise_packet delta p)).
Proof.
  intros H. rewrite !PacketSNR_average_policy by exact H.
  apply TxPowerToSNR_raised. cbn [raise_packet snd gwList].
  apply GetAverageTxFromGateways_raise.
Qed.

(** *** The same for any estimates that are not lowered *)

Lemma no_lower_add_r (x x' c : double) :
  no_lower x x' -> no_lower (x + c)%D (x' + c)%D.
Proof. destruct x, x', c; simpl; try tauto. intros; lra. Qed.

Lemma TxPowerToSNR_no_lower (log10 : double -> double) (this : AdrComponent)
    (x x' : double) :
  no_lower x x' -> no_lower (TxPowerToSNR log10 this x) (TxPowerToSNR log10 this x').
Proof.
  intros H. unfold TxPowerToSNR. now apply no_lower_sub, no_lower_sub, no_lower_add_r.
Qed.

Lemma GetMaxTxFromGateways_loop_raise (delta : Q) (it : GatewayList) (max max' : double) :
  (0 < delta)%Q -> no_lower max max' ->
  no_lower (GetMaxTxFromGateways_loop it max)
    (GetMaxTxFromGateways_loop (raise_reports delta it) max').
Proof.
  intros Hd. revert max max'. induction it as [| [addr info] it IH]; intros max max' H.
  - exact H.
  - cbn [GetMaxTxFromGateways_loop raise_reports map fst snd rxPower].
    fold (raise_reports delta it). apply IH. apply no_lower_select; [| exact H].
    destruct (rxPower info) as [p |]; cbn; [lra | exact I].
Qed.

Lemma PacketSNR_raise_packet_no_lower (log10 : double -> double) (this : AdrComponent)
    (delta : Q) (p : Packet * ReceivedPacketInfo) :
  (0 < delta)%Q ->
  no_lower (PacketSNR log10 this p) (PacketSNR log10 this (raise_packet delta p)).
Proof.
  intros Hd. destruct (tpAveraging this) eqn:E.
  - apply (raised_no_lower delta); [exact Hd |]. now apply PacketSNR_raise_packet.
  - rewrite !PacketSNR_max_policy by exact E.
    apply TxPowerToSNR_no_lower, TxPowerToSNR_no_lower.
    cbn [raise_packet snd gwList]. unfold GetMaxTxFromGateways.
    apply GetMaxTxFromGateways_loop_raise; [exact Hd | apply no_lower_refl].
Qed.

Section MonotoneEstimates.

Variable log10 : double -> double.
Variable this : AdrComponent.

Lemma GetMaxSNR_loop_no_lower (n : nat) (it it' : ReceivedPacketList)
    (max max' r r' : double) :
  Forall2 (fun p p' => no_lower (PacketSNR log10 this p) (PacketSNR log10 this p')) it it' ->
  no_lower max max' ->
  GetMaxSNR_loop log10 this n it max = Some r ->
  GetMaxSNR_loop log10 this n it' max' = Some r' ->
  no_lower r r'.
Proof.
  revert it it' max max'.
  induction n as [| n IH]; intros it it' max max' HF Hm H H'.
  - simpl in H, H'. congruence.
  - destruct HF as [| [pkt info] [pkt' info'] it it' Hp HF]; [discriminate |].
    cbn [GetMaxSNR_loop] in H, H'. cbv zeta in H, H'.
    refine (IH _ _ _ _ HF _ H H'). apply no_lower_select; [exact Hp | exact Hm].
Qed.

Lemma GetAverageSNR_loop_no_lower (n : nat) (it it' : ReceivedPacketList)
    (sum sum' : double) (m m' : option double) (s s' : double) (r r' : option double) :
  Forall2 (fun p p' => no_lower (PacketSNR log10 this p) (PacketSNR log10 this p')) it it' ->
  opt_no_lower m m' ->
  GetAverageSNR_loop log10 this n it sum m = Some (s, r) ->
  GetAverageSNR_loop log10 this n it' sum' m' = Some (s', r') ->
  opt_no_lower r r'.
Proof.
  revert it it' sum sum' m m'.
  induction n as [| n IH]; intros it it' sum sum' m m' HF Hm H H'.
  - simpl in H, H'. congruence.
  - destruct HF as [| [pkt info] [pkt' info'] it it' Hp HF]; [discriminate |].
    cbn [GetAverageSNR_loop] in H, H'. cbv zeta in H, H'.
    refine (IH _ _ _ _ _ _ HF _ H H'). exact Hp.
Qed.

Lemma AdrSteps_no_lower (status status' : EndDeviceStatus) (s s' : Z) :
  Forall2 (fun p p' => no_lower (PacketSNR log10 this p) (PacketSNR log10 this p'))
    (GetReceivedPacketList status) (GetReceivedPacketList status') ->
  GetFirstReceiveWindowSpreadingFactor status'
  = GetFirstReceiveWindowSpreadingFactor status ->
  AdrSteps log10 this status = Some s ->
  AdrSteps log10 this status' = Some s' ->
  s <= s'.
Proof.
  intros HF Hsf. unfold AdrSteps. rewrite Hsf.
  assert (Hagg : forall r r',
             (if historyAveraging this
              then GetAverageSNR log10 this (GetReceivedPacketList status) (historyRange this)
              else GetMaxSNR log10 this (GetReceivedPacketList status) (historyRange this))
             = Some r ->
             (if historyAveraging this
              then GetAverageSNR log10 this (GetReceivedPacketList status') (historyRange this)
              else GetMaxSNR log10 this (GetReceivedPacketList status') (historyRange this))
             = Some r' ->
             no_lower r r').
  { destruct (historyAveraging this); intros r r' H H'.
    - assert (Hpos : 0 < historyRange this).
      { apply (GetAverageSNR_defined_iff log10 this (GetReceivedPacketList status)).
        eauto. }
      unfold GetAverageSNR in H, H'.
      destruct (GetAverageSNR_loop log10 this (Z.to_nat (historyRange this))
                  (rev (GetReceivedPacketList status)) (of_int 0) None)
        as [[x [m |]] |] eqn:E; try discriminate.
      destruct (GetAverageSNR_loop log10 this (Z.to_nat (historyRange this))
                  (rev (GetReceivedPacketList status')) (of_int 0) None)
        as [[x' [m' |]] |] eqn:E'; try discriminate.
      injection H as <-. injection H' as <-.
      apply no_lower_div; [exact Hpos |].
      change (opt_no_lower (Some m) (Some m')).
      refine (GetAverageSNR_loop_no_lower _ _ _ _ _ None None _ _ _ _ _ _ E E').
      + apply Forall2_rev, HF.
      + exact I.
    - unfold GetMaxSNR in H, H'. cbv zeta in H, H'.
      refine (GetMaxSNR_loop_no_lower _ _ _ _ _ _ _ _ _ H H').
      + apply Forall2_rev, HF.
      + apply no_lower_refl. }
  destruct (if historyAveraging this
            then GetAverageSNR log10 this (GetReceivedPacketList status) (historyRange this)
            else GetMaxSNR log10 this (GetReceivedPacketList status) (historyRange this))
    as [m |]; [| discriminate].
  destruct (if historyAveraging this
            then GetAverageSNR log10 this (GetReceivedPacketList status') (historyRange this)
            else GetMaxSNR log10 this (GetReceivedPacketList status') (historyRange this))
    as [m' |]; [| discriminate].
  specialize (Hagg m m' eq_refl eq_refl).
  destruct (index (treshold this) (SfToDr (GetFirstReceiveWindowSpreadingFactor status)))
    as [req |]; [| discriminate].
  apply no_lower_to_int, no_lower_floor, no_lower_div; [lia |].
  now apply no_lower_sub, no_lower_sub.
Qed.

End MonotoneEstimates.

(** X11.  Under either policy over gateways and either policy over the
    history, raising every reported power of every packet of the history by
    the same [delta > 0] never gives a higher spreading factor or a higher
    transmission power. *)
Theorem X11_raised_reports_never_raise_decision
    (log10 : double -> double) (this : AdrComponent) (status : EndDeviceStatus)
    (delta : Q) (sf1 sf2 : Z) (tp1 tp2 : double) :
  (0 < delta)%Q ->
  is_finite (GetTransmissionPower status) ->
  AdrDecision log10 this status = Some (sf1, tp1) ->
  AdrDecision log10 this (raise_history delta status) = Some (sf2, tp2) ->
  sf2 <= sf1 /\ (tp2 <= tp1)%D.
Proof.
  intros Hd Hfin. unfold AdrDecision.
  destruct (AdrSteps log10 this status) as [s |] eqn:Es; [| discriminate].
  destruct (AdrSteps log10 this (raise_history delta status)) as [s' |] eqn:Es';
    [| discriminate].
  assert (HF : Forall2
                 (fun p p' => no_lower (PacketSNR log10 this p)
                                (PacketSNR log10 this p'))
                 (GetReceivedPacketList status)
                 (GetReceivedPacketList (raise_history delta status))).
  { cbn [raise_history GetReceivedPacketList].
    induction (GetReceivedPacketList status) as [| p l IH]; constructor;
      [now apply PacketSNR_raise_packet_no_lower | exact IH]. }
  assert (Hs : s <= s').
  { exact (AdrSteps_no_lower log10 this status (raise_history delta status) s s'
             HF eq_refl Es Es'). }
  cbn [raise_history GetFirstReceiveWindowSpreadingFactor GetTransmissionPower].
  destruct (GetTransmissionPower status) as [q |]; [| contradiction].
  pose proof (StepPolicy_mono this s s' (GetFirstReceiveWindowSpreadingFactor status) q Hs)
    as [Msf Mtp].
  destruct (StepPolicy this s (GetFirstReceiveWindowSpreadingFactor status) (Fin q))
    as [[x1 y1] z1].
  destruct (StepPolicy this s' (GetFirstReceiveWindowSpreadingFactor status) (Fin q))
    as [[x2 y2] z2].
  cbn [fst snd] in Msf, Mtp.
  intros H1 H2. injection H1 as <- <-. injection H2 as <- <-. auto.
Qed.

(** X11 at work: the device at SF 7 and 14 dBm, every report of its twenty
    uplinks raised from -80 dBm by 10 dB. *)
Lemma X11_witness :
  AdrDecision log10_approx default (device 7 14 (steady (-80))) = Some (7, Fin 5) /\
  AdrDecision log10_approx default (raise_history 10 (device 7 14 (steady (-80))))
  = Some (7, Fin 2) /\
  7 <= 7 /\ (Fin 2 <= Fin 5)%D.
Proof.
  split; [vm_compute; reflexivity |]. split; [vm_compute; reflexivity |].
  exact (X11_raised_reports_never_raise_decision
           log10_approx default (device 7 14 (steady (-80))) 10 7 7 (Fin 5) (Fin 2)
           eq_refl I
           ltac:(vm_compute; reflexivity) ltac:(vm_compute; reflexivity)).
Defined.

(** ** The step policy off the grid *)

Section StepPolicyGeneral.

Variable this : AdrComponent.




End StepPolicyGeneral.





(** ** What the hook leaves alone *)

(** X14.  Whatever [BeforeSendingReply] returns, the last packet, the
    history, the spreading factor and the transmission power of the device
    record are as they were; the commands already in the reply's frame header
    are kept in front of at most one new command, and a needs-reply flag
    that was set stays set. *)
Theorem X14_BeforeSendingReply_writes_reply_only
    (log10 : double -> double) (this : AdrComponent)
    (status status' : EndDeviceStatus) :
  BeforeSendingReply log10 this status = Some status' ->
  GetLastPacketReceivedFromDevice status' = GetLastPacketReceivedFromDevice status /\
  GetReceivedPacketList status' = GetReceivedPacketList status /\
  GetFirstReceiveWindowSpreadingFactor status'
  = GetFirstReceiveWindowSpreadingFactor status /\
  GetTransmissionPower status' = GetTransmissionPower status /\
  (exists added,
     commands (frameHeader (m_reply status'))
     = commands (frameHeader (m_reply status)) ++ added /\
     (length added <= 1)%nat) /\
  (needsReply (m_reply status) = true -> needsReply (m_reply status') = true).
Proof.
  unfold BeforeSendingReply. intros H.
  assert (Hsame : status' = status ->
                  GetLastPacketReceivedFromDevice status'
                  = GetLastPacketReceivedFromDevice status /\
                  GetReceivedPacketList status' = GetReceivedPacketList status /\
                  GetFirstReceiveWindowSpreadingFactor status'
                  = GetFirstReceiveWindowSpreadingFactor status /\
                  GetTransmissionPower status' = GetTransmissionPower status /\
                  (exists added,
                     commands (frameHeader (m_reply status'))
                     = commands (frameHeader (m_reply status)) ++ added /\
                     (length added <= 1)%nat) /\
                  (needsReply (m_reply status) = true ->
                   needsReply (m_reply status') = true)).
  { intros ->. repeat split; try tauto.
    exists []. rewrite app_nil_r. split; [reflexivity | cbn; lia]. }
  destruct (GetAdr (GetLastPacketReceivedFromDevice status));
    [| injection H as <-; now apply Hsame].
  destruct (Z.of_nat (length (GetReceivedPacketList status)) <? historyRange this);
    [injection H as <-; now apply Hsame |].
  destruct (AdrImplementation log10 this status) as [[dr tp] |]; [| discriminate].
  injection H as <-. cbn. repeat split.
  exists [LinkAdrReq dr tp [1; 2; 3] 1]. split; [reflexivity | cbn; lia].
Qed.

(** X14 at work, on a reply that already holds a command. *)
Lemma X14_witness :
  let busy :=
    {| GetLastPacketReceivedFromDevice := {| GetAdr := true |};
       GetReceivedPacketList := steady (-80);
       GetFirstReceiveWindowSpreadingFactor := 7;
       GetTransmissionPower := of_int 14;
       m_reply :=
         {| needsReply := true;
            frameHeader := {| commands := [LinkAdrReq 3 11 [1; 2; 3] 1];
                              direction := Downlink |};
            macHeader := {| mtype := CONFIRMED_DATA_DOWN |} |} |} in
  exists added,
    [LinkAdrReq 3 11 [1; 2; 3] 1; LinkAdrReq 0 5 [1; 2; 3] 1]
    = [LinkAdrReq 3 11 [1; 2; 3] 1] ++ added /\ (length added <= 1)%nat.
Proof.
  cbv zeta.
  refine (proj1 (proj2 (proj2 (proj2 (proj2
            (X14_BeforeSendingReply_writes_reply_only log10_approx default
               {| GetLastPacketReceivedFromDevice := {| GetAdr := true |};
                  GetReceivedPacketList := steady (-80);
                  GetFirstReceiveWindowSpreadingFactor := 7;
                  GetTransmissionPower := of_int 14;
                  m_reply :=
                    {| needsReply := true;
                       frameHeader := {| commands := [LinkAdrReq 3 11 [1; 2; 3] 1];
                                         direction := Downlink |};
                       macHeader := {| mtype := CONFIRMED_DATA_DOWN |} |} |}
               {| GetLastPacketReceivedFromDevice := {| GetAdr := true |};
                  GetReceivedPacketList := steady (-80);
                  GetFirstReceiveWindowSpreadingFactor := 7;
                  GetTransmissionPower := of_int 14;
                  m_reply :=
                    {| needsReply := true;
                       frameHeader :=
                         {| commands := [LinkAdrReq 3 11 [1; 2; 3] 1;
                                         LinkAdrReq 0 5 [1; 2; 3] 1];
                            direction := Downlink |};
                       macHeader := {| mtype := UNCONFIRMED_DATA_DOWN |} |} |}
               _)))))).
  vm_compute. reflexivity.
Defined.

(** X15.  [BeforeSendingReply] does not look at what the reply already
    holds: on a device that passes its two tests a second call stages the
    same command once more. *)
Theorem X15_BeforeSendingReply_twice_stages_twice
    (log10 : double -> double) (this : AdrComponent) (status : EndDeviceStatus)
    (newDataRate newTxPower : Z) :
  GetAdr (GetLastPacketReceivedFromDevice status) = true ->
  historyRange this <= Z.of_nat (length (GetReceivedPacketList status)) ->
  AdrImplementation log10 this status = Some (newDataRate, newTxPower) ->
  exists once twice,
    BeforeSendingReply log10 this status = Some once /\
    BeforeSendingReply log10 this once = Some twice /\
    commands (frameHeader (m_reply twice))
    = commands (frameHeader (m_reply status))
      ++ [LinkAdrReq newDataRate newTxPower [1; 2; 3] 1;
          LinkAdrReq newDataRate newTxPower [1; 2; 3] 1].
Proof.
  intros Hadr Hlen Himpl.
  assert (Hstage : forall s,
             GetAdr (GetLastPacketReceivedFromDevice s) = true ->
             historyRange this <= Z.of_nat (length (GetReceivedPacketList s)) ->
             AdrImplementation log10 this s = Some (newDataRate, newTxPower) ->
             BeforeSendingReply log10 this s = Some (stage s newDataRate newTxPower)).
  { intros s Ha Hl Hi. unfold BeforeSendingReply. rewrite Ha, Hi.
    destruct (Z.ltb_spec (Z.of_nat (length (GetReceivedPacketList s)))
                (historyRange this)); [lia | reflexivity]. }
  exists (stage status newDataRate newTxPower),
    (stage (stage status newDataRate newTxPower) newDataRate newTxPower).
  split; [now apply Hstage |]. split.
  - apply Hstage; [exact Hadr | exact Hlen | exact Himpl].
  - cbn. rewrite <- app_assoc. reflexivity.
Qed.

(** X15 at work on the device at SF 7 and 14 dBm. *)
Lemma X15_witness :
  exists once twice,
    BeforeSendingReply log10_approx default (device 7 14 (steady (-80))) = Some once /\
    BeforeSendingReply log10_approx default once = Some twice /\
    commands (frameHeader (m_reply twice))
    = [] ++ [LinkAdrReq 0 5 [1; 2; 3] 1; LinkAdrReq 0 5 [1; 2; 3] 1].
Proof.
  apply (X15_BeforeSendingReply_twice_stages_twice
           log10_approx default (device 7 14 (steady (-80))) 0 5).
  - reflexivity.
  - cbn. lia.
  - vm_compute. reflexivity.
Defined.

(** ** The max history policy on weak signals *)

Lemma GetAverageTxFromGateways_loop_upper (it : GatewayList) (a hi : Q) :
  Forall (fun e => (rxPower (snd e) <= Fin hi)%D) it ->
  exists s,
    GetAverageTxFromGateways_loop it (Fin a) = Fin s /\
    (s <= a + inject_Z (Z.of_nat (length it)) * hi)%Q.
Proof.
  intros H. revert a. induction H as [| [addr info] it Hhi _ IH]; intros a.
  - exists a. cbn [GetAverageTxFromGateways_loop length Z.of_nat].
    change (inject_Z 0) with 0%Q. split; [reflexivity | lra].
  - cbn [GetAverageTxFromGateways_loop]. cbn [snd] in Hhi.
    destruct (rxPower info) as [p |]; [| contradiction].
    cbn in Hhi. destruct (IH (a + p)%Q) as (s & E & L).
    exists s. split; [exact E |].
    cbn [length]. rewrite Nat2Z.inj_succ, <- Z.add_1_r, inject_Z_plus.
    change (inject_Z 1) with 1%Q. lra.
Qed.

Lemma PacketSNR_not_above_floor (log10 : double -> double) (this : AdrComponent)
    (p : Packet * ReceivedPacketInfo) :
  tpAveraging this = true ->
  Forall (fun e => (rxPower (snd e) <= of_int (min_transmissionPower this))%D)
    (gwList (snd p)) ->
  (PacketSNR log10 this p
   >? TxPowerToSNR log10 this (of_int (min_transmissionPower this)))%D = false.
Proof.
  intros Havg H. rewrite PacketSNR_average_policy by exact Havg.
  unfold GetAverageTxFromGateways. cbv zeta.
  destruct (GetAverageTxFromGateways_loop_upper (gwList (snd p)) (inject_Z 0)
              (inject_Z (min_transmissionPower this)) H) as (s & E & L).
  change (of_int 0) with (Fin (inject_Z 0)). rewrite E.
  unfold div, of_int at 1.
  destruct (Qeq_bool (inject_Z (Z.of_nat (length (gwList (snd p))))) 0) eqn:Ez.
  { change (TxPowerToSNR log10 this NaN) with NaN.
    unfold gtb, ltb.
    destruct (TxPowerToSNR log10 this (of_int (min_transmissionPower this)));
      reflexivity. }
  assert (Hn : (0 < inject_Z (Z.of_nat (length (gwList (snd p)))))%Q).
  { assert (Hz : (inject_Z 0 <= inject_Z (Z.of_nat (length (gwList (snd p)))))%Q)
      by (rewrite <- Zle_Qle; lia).
    change (inject_Z 0) with 0%Q in Hz.
    destruct (Qeq_dec (inject_Z (Z.of_nat (length (gwList (snd p))))) 0) as [C | C].
    - apply Qeq_bool_iff in C. congruence.
    - lra. }
  assert (Hmean : (s / inject_Z (Z.of_nat (length (gwList (snd p))))
                   <= inject_Z (min_transmissionPower this))%Q).
  { apply Qle_shift_div_r; [exact Hn |]. change (inject_Z 0) with 0%Q in L. lra. }
  unfold TxPowerToSNR, of_int.
  destruct (log10 (Fin (inject_Z (B this)))) as [l |]; [| reflexivity].
  cbn [add sub mul lift2]. apply gtb_Fin_false. lra.
Qed.

(** X16.  Under the average policy over gateways, when no report of the
    window is above the minimum transmission power (a packet without report
    counts), [GetMaxSNR] returns its start value
    [TxPowerToSNR(min_transmissionPower)], whatever the reports are. *)
Theorem X16_max_history_constant_on_weak_reports
    (log10 : double -> double) (this : AdrComponent)
    (packetList : ReceivedPacketList) (historyRange : Z) :
  tpAveraging this = true ->
  historyRange <= Z.of_nat (length packetList) ->
  Forall (fun p =>
            Forall (fun e => (rxPower (snd e) <= of_int (min_transmissionPower this))%D)
              (gwList (snd p)))
    (window packetList historyRange) ->
  GetMaxSNR log10 this packetList historyRange
  = Some (TxPowerToSNR log10 this (of_int (min_transmissionPower this))).
Proof.
  intros Havg Hlen Hall. unfold GetMaxSNR. cbv zeta.
  destruct (GetMaxSNR_loop_defined log10 this (Z.to_nat historyRange) (rev packetList)
              (TxPowerToSNR log10 this (of_int (min_transmissionPower this))))
    as [r Hr]; [rewrite length_rev; lia |].
  rewrite Hr. f_equal.
  apply (GetMaxSNR_loop_below log10 this _ _ _ _) in Hr; [exact Hr |].
  unfold window in Hall. eapply Forall_impl; [| exact Hall].
  intros p Hp. now apply PacketSNR_not_above_floor.
Qed.

(** X16 at work: twenty uplinks heard at -80 dBm. *)
Lemma X16_witness :
  GetMaxSNR log10_approx max_over_history (steady (-80)) 20
  = Some (TxPowerToSNR log10_approx max_over_history (of_int 2)).
Proof.
  apply (X16_max_history_constant_on_weak_reports
           log10_approx max_over_history (steady (-80)) 20).
  - reflexivity.
  - cbn. lia.
  - cbn [window steady repeat Z.to_nat Pos.to_nat Pos.iter_op Nat.add rev app firstn].
    repeat (constructor; [repeat constructor; vm_compute; discriminate |]). constructor.
Defined.
